(** * Conversation Memory Manager (src/memory_manager.py)

    Shallow embedding of the tiered conversation store: the Redis cache
    (per-user lists under the key ["conversation:" ++ user_id], newest
    first, LPUSH on save), the MongoDB collection ["conversations"]
    (documents filtered by user_id, read sorted by timestamp descending)
    and the module-level dict [_local_conversations] (oldest first).

    Every external call is modelled by the command it issues to the
    client library, recorded in a trace, so that a claim about "what is
    issued" or "what is consulted" can be stated on the trace.  Whether a
    tier answers a call is part of the per-call environment [env]. *)

From Stdlib Require Import ZArith List String Ascii Bool Lia.
From stdpp Require Import base gmap strings list.
Import ListNotations.
Open Scope Z_scope.

(** ** Data model *)

(** One saved conversation entry: the payload dict built by
    [save_conversation] ([user_message], [ai_response], [timestamp]).
    Timestamps are instants in milliseconds, the precision MongoDB keeps
    and sorts on; the finer digits of [isoformat()] only reach the
    sidebar's display, which shows minutes. *)
Record turn := mk_turn {
  user_message : string;
  ai_response : string;
  timestamp : Z
}.

(** A Redis element decoded by [json.loads]: a dict read with
    [d.get(key, "")].  Its ["timestamp"] is [Some ts] when
    [datetime.fromisoformat] parses it (instant [ts]) and [None] when it
    is missing or does not parse. *)
Record record := mk_record {
  rec_user : string;
  rec_ai : string;
  rec_ts : option Z
}.

(** A Redis list element: [Serialized d] decodes to the dict [d];
    [Malformed raw] is any element on which [json.loads] (or the following
    [d.get]) raises.  Elements may come from other writers than this
    module. *)
Inductive cached_item :=
| Serialized (payload : record)
| Malformed (raw : string).

Definition json_loads (c : cached_item) : option record :=
  match c with
  | Serialized d => Some d
  | Malformed _ => None
  end.

(** [json.dumps(payload)] in [save_conversation]: the timestamp written
    with [isoformat()], which [fromisoformat] reads back. *)
Definition json_dumps (t : turn) : cached_item :=
  Serialized (mk_record (user_message t) (ai_response t) (Some (timestamp t))).

(** The role/content dicts of [get_context_history]. *)
Inductive role := RUser | RAssistant.

Record context_entry := mk_entry { role_of : role; content : string }.

(** The sidebar tuples of [load_recent_conversations]:
    (user_message, ai_response, timestamp).  [strftime] is kept as the
    instant itself. *)
Definition sidebar_row : Type := (string * string * Z)%type.

(** Commands issued to the two client libraries. *)
Inductive command :=
| RedisPing
| LPush (key : string)
| LRange (key : string) (start stop : Z)
| LPop (key : string)
| RedisDelete (key : string)
| MongoPing
| InsertOne (user_id : string)
| Find (user_id : string) (limit : Z)
| FindOne (user_id : string)
| DeleteOne (user_id : string)
| DeleteMany (user_id : string)
| CreateIndex (keys : list (string * Z)).

Definition is_mongo_command (c : command) : bool :=
  match c with
  | MongoPing | InsertOne _ | Find _ _ | FindOne _ | DeleteOne _
  | DeleteMany _ | CreateIndex _ => true
  | _ => false
  end.

Definition is_create_index (c : command) : bool :=
  match c with CreateIndex _ => true | _ => false end.

(** Process state: the two cached handles ([_redis_client],
    [_mongo_collection] not None), the contents of the three tiers, and
    the wall clock read by [datetime.now] (milliseconds).  The Mongo
    collection is kept as its partition by [user_id] (every query of the
    module filters on it), each partition in the order
    [sort("timestamp", -1)] returns it: newest first, documents with the
    same timestamp in the order the server chose for them (see
    [insert_by_ts]).  Every document and every fallback entry is written
    by this module, with a timestamp. *)
Record state := mk_state {
  redis_client : bool;
  mongo_collection : bool;
  redis_lists : gmap string (list cached_item);
  mongo_docs : gmap string (list turn);
  local_conversations : gmap string (list turn);
  clock : Z
}.

(** Per-call environment: whether [REDIS_URL] / [MONGODB_URI] are set,
    whether each server answers during this call (ping and operations),
    and, for a document inserted with the same timestamp as stored ones,
    how many of those the server's sort returns before it. *)
Record env := mk_env {
  REDIS_URL : bool;
  MONGODB_URI : bool;
  redis_up : bool;
  mongo_up : bool;
  tie_rank : nat
}.

Definition set_redis_client (b : bool) (st : state) : state :=
  mk_state b (mongo_collection st) (redis_lists st) (mongo_docs st)
    (local_conversations st) (clock st).
Definition set_mongo_collection (b : bool) (st : state) : state :=
  mk_state (redis_client st) b (redis_lists st) (mongo_docs st)
    (local_conversations st) (clock st).
Definition set_redis_lists (m : gmap string (list cached_item)) (st : state) : state :=
  mk_state (redis_client st) (mongo_collection st) m (mongo_docs st)
    (local_conversations st) (clock st).
Definition set_mongo_docs (m : gmap string (list turn)) (st : state) : state :=
  mk_state (redis_client st) (mongo_collection st) (redis_lists st) m
    (local_conversations st) (clock st).
Definition set_local (m : gmap string (list turn)) (st : state) : state :=
  mk_state (redis_client st) (mongo_collection st) (redis_lists st)
    (mongo_docs st) m (clock st).
Definition set_clock (c : Z) (st : state) : state :=
  mk_state (redis_client st) (mongo_collection st) (redis_lists st)
    (mongo_docs st) (local_conversations st) c.

(** [dict.get(k, [])] and the list stored under a Redis key (a missing key
    reads as the empty list). *)
Definition get_list {A} (m : gmap string (list A)) (k : string) : list A :=
  match m !! k with Some l => l | None => [] end.

(** ** The state-and-trace monad *)

Definition M (A : Type) : Type := state -> A * state * list command.

Definition ret {A} (a : A) : M A := fun st => (a, st, []).

Definition bind {A B} (m : M A) (k : A -> M B) : M B :=
  fun st =>
    match m st with
    | (a, st1, t1) =>
        match k a st1 with
        | (b, st2, t2) => (b, st2, t1 ++ t2)
        end
    end.

Notation "x <- m ;; k" := (bind m (fun x => k))
  (at level 100, m at next level, right associativity).

Definition modify (f : state -> state) : M unit := fun st => (tt, f st, []).
Definition gets {A} (f : state -> A) : M A := fun st => (f st, st, []).
Definition issue (c : command) : M unit := fun st => (tt, st, [c]).

Definition result {A} (r : A * state * list command) : A := fst (fst r).
Definition final {A} (r : A * state * list command) : state := snd (fst r).
Definition trace {A} (r : A * state * list command) : list command := snd r.

(** [datetime.now(timezone.utc)]: reads the wall clock.  Time passes
    between two operations ([elapse]); two saves may fall in the same
    millisecond. *)
Definition now : M Z := gets clock.

Definition elapse (ms : N) (st : state) : state := set_clock (clock st + Z.of_N ms) st.

(** ** Clients *)

Definition redis_key (user_id : string) : string :=
  String.append "conversation:" user_id.

(** [get_redis_client]: the cached client, or None without a URL, or a
    fresh client after a successful ping. *)
Definition get_redis_client (e : env) : M bool :=
  fun st =>
    if redis_client st then (true, st, [])
    else if negb (REDIS_URL e) then (false, st, [])
    else if redis_up e then (true, set_redis_client true st, [RedisPing])
    else (false, set_redis_client false st, [RedisPing]).

(** [get_mongo_collection]: same shape, with the admin ping. *)
Definition get_mongo_collection (e : env) : M bool :=
  fun st =>
    if mongo_collection st then (true, st, [])
    else if negb (MONGODB_URI e) then (false, st, [])
    else if mongo_up e then (true, set_mongo_collection true st, [MongoPing])
    else (false, set_mongo_collection false st, [MongoPing]).

(** Client operations: [None] when the call raises (server down). *)
Definition r_lpush (e : env) (key : string) (v : cached_item) : M (option unit) :=
  fun st =>
    if redis_up e then
      (Some tt, set_redis_lists (<[key := v :: get_list (redis_lists st) key]> (redis_lists st)) st,
       [LPush key])
    else (None, st, [LPush key]).

(** [LRANGE key start stop] for non-negative indices. *)
Definition lrange {A} (l : list A) (start stop : Z) : list A :=
  firstn (Z.to_nat (stop - start + 1)) (skipn (Z.to_nat start) l).

Definition r_lrange (e : env) (key : string) (start stop : Z) : M (option (list cached_item)) :=
  fun st =>
    if redis_up e then (Some (lrange (get_list (redis_lists st) key) start stop), st,
                        [LRange key start stop])
    else (None, st, [LRange key start stop]).

(** [LPOP key]: [Some None] on an empty or missing list. *)
Definition r_lpop (e : env) (key : string) : M (option (option cached_item)) :=
  fun st =>
    if redis_up e then
      match get_list (redis_lists st) key with
      | x :: rest => (Some (Some x), set_redis_lists (<[key := rest]> (redis_lists st)) st, [LPop key])
      | [] => (Some None, st, [LPop key])
      end
    else (None, st, [LPop key]).

Definition r_delete (e : env) (key : string) : M (option unit) :=
  fun st =>
    if redis_up e then (Some tt, set_redis_lists (delete key (redis_lists st)) st, [RedisDelete key])
    else (None, st, [RedisDelete key]).

(** A user's documents in [sort("timestamp", -1)] order once [t] is
    inserted: [t] comes after every document with a later timestamp and
    before every one with an earlier timestamp; the server orders
    documents with equal timestamps as it likes, and [k] of those come
    before [t]. *)
Fixpoint insert_by_ts (k : nat) (t : turn) (l : list turn) : list turn :=
  match l with
  | [] => [t]
  | x :: rest =>
      if timestamp x <? timestamp t then t :: l
      else if timestamp t <? timestamp x then x :: insert_by_ts k t rest
      else match k with
           | O => t :: l
           | S k' => x :: insert_by_ts k' t rest
           end
  end.

(** [insert_one]. *)
Definition m_insert_one (e : env) (user_id : string) (t : turn) : M (option unit) :=
  fun st =>
    if mongo_up e then
      (Some tt, set_mongo_docs (<[user_id := insert_by_ts (tie_rank e) t (get_list (mongo_docs st) user_id)]>
                                 (mongo_docs st)) st,
       [InsertOne user_id])
    else (None, st, [InsertOne user_id]).

(** [find({"user_id": u}).sort("timestamp", -1).limit(n)] for n > 0. *)
Definition m_find (e : env) (user_id : string) (limit : Z) : M (option (list turn)) :=
  fun st =>
    if mongo_up e then (Some (firstn (Z.to_nat limit) (get_list (mongo_docs st) user_id)), st,
                        [Find user_id limit])
    else (None, st, [Find user_id limit]).

(** [find_one({"user_id": u}, sort=[("timestamp", -1)])]. *)
Definition m_find_one (e : env) (user_id : string) : M (option (option turn)) :=
  fun st =>
    if mongo_up e then (Some (head (get_list (mongo_docs st) user_id)), st, [FindOne user_id])
    else (None, st, [FindOne user_id]).

(** [delete_one({"_id": latest["_id"]})] where [latest] is the newest
    document of the user. *)
Definition m_delete_latest (e : env) (user_id : string) : M (option unit) :=
  fun st =>
    if mongo_up e then
      (Some tt, set_mongo_docs (<[user_id := tail (get_list (mongo_docs st) user_id)]> (mongo_docs st)) st,
       [DeleteOne user_id])
    else (None, st, [DeleteOne user_id]).

Definition m_delete_many (e : env) (user_id : string) : M (option unit) :=
  fun st =>
    if mongo_up e then (Some tt, set_mongo_docs (delete user_id (mongo_docs st)) st, [DeleteMany user_id])
    else (None, st, [DeleteMany user_id]).

(** Whether a tier serves a call: a handle is cached or can be built from
    the configured URL, and the server answers. *)
Definition cache_works (e : env) (st : state) : bool :=
  (redis_client st || REDIS_URL e) && redis_up e.
Definition store_works (e : env) (st : state) : bool :=
  (mongo_collection st || MONGODB_URI e) && mongo_up e.

(** ** Local helpers *)

(** [_local_append]: [setdefault(user_id, []).append(item)]. *)
Definition local_append (user_id : string) (item : turn) (st : state) : state :=
  set_local (<[user_id := get_list (local_conversations st) user_id ++ [item]]>
               (local_conversations st)) st.

(** [_local_get_recent]: [items[-limit:]] for a positive limit. *)
Definition local_get_recent (st : state) (user_id : string) (limit : Z) : list turn :=
  let items := get_list (local_conversations st) user_id in
  if limit <=? 0 then []
  else skipn (length items - Z.to_nat limit) items.

(** [_local_conversations[user_id].pop()]. *)
Definition local_pop (user_id : string) (st : state) : state :=
  set_local (<[user_id := removelast (get_list (local_conversations st) user_id)]>
               (local_conversations st)) st.

(** Python truthiness of a list. *)
Definition nonempty {A} (l : list A) : bool :=
  match l with [] => false | _ :: _ => true end.

(** ** save_conversation *)

Definition save_conversation (e : env) (user_id user_msg ai_msg : string) : M bool :=
  ts <- now ;;
  let payload := mk_turn user_msg ai_msg ts in
  r <- get_redis_client e ;;
  saved_any <- (if r then
                  res <- r_lpush e (redis_key user_id) (json_dumps payload) ;;
                  ret (match res with Some _ => true | None => false end)
                else ret false) ;;
  col <- get_mongo_collection e ;;
  saved_any <- (if col then
                  res <- m_insert_one e user_id payload ;;
                  ret (match res with Some _ => true | None => saved_any end)
                else ret saved_any) ;;
  if negb saved_any then
    done_ <- modify (local_append user_id payload) ;;
    ret true
  else ret saved_any.

(** ** get_context_history *)

(** One turn as two role/content messages. *)
Definition expand (t : turn) : list context_entry :=
  [mk_entry RUser (user_message t); mk_entry RAssistant (ai_response t)].

Definition record_entries (d : record) : list context_entry :=
  [mk_entry RUser (rec_user d); mk_entry RAssistant (rec_ai d)].

(** The Redis loop [for item in reversed(raw): d = json.loads(item); ...]:
    the first malformed item raises out of the loop. *)
Fixpoint cached_history (items : list cached_item) : option (list context_entry) :=
  match items with
  | [] => Some []
  | item :: rest =>
      match json_loads item, cached_history rest with
      | Some d, Some h => Some (record_entries d ++ h)
      | _, _ => None
      end
  end.

Definition get_context_from_mongo (e : env) (user_id : string) (limit : Z)
  : M (list context_entry) :=
  col <- get_mongo_collection e ;;
  if negb col then ret []
  else
    rows <- m_find e user_id limit ;;
    match rows with
    | Some rows => ret (flat_map expand (rev rows))
    | None => ret []
    end.

Definition get_context_history (e : env) (user_id : string) (limit : Z)
  : M (list context_entry) :=
  if limit <=? 0 then ret []
  else
    r <- get_redis_client e ;;
    raw <- (if r then r_lrange e (redis_key user_id) 0 (Z.max 0 (limit - 1))
            else ret None) ;;
    match match raw with Some raw => cached_history (rev raw) | None => None end with
    | Some history => ret history
    | None =>
        mongo_hist <- get_context_from_mongo e user_id limit ;;
        match mongo_hist with
        | _ :: _ => ret mongo_hist
        | [] =>
            items <- gets (fun st => local_get_recent st user_id limit) ;;
            ret (flat_map expand items)
        end
    end.

(** ** load_recent_conversations *)

(** A row built from a MongoDB document or a fallback entry.  Both are
    written only by [save_conversation], with a [datetime] timestamp, so
    the [or datetime.now(...)] and [fromisoformat] fallbacks of those
    two loops never fire. *)
Definition sidebar_of (t : turn) : sidebar_row :=
  (user_message t, ai_response t, timestamp t).

(** One row of the Redis loop of the sidebar: a timestamp that is
    missing or does not parse is replaced by [datetime.now] ([now_ts]). *)
Definition cached_row (now_ts : Z) (d : record) : sidebar_row :=
  (rec_user d, rec_ai d, match rec_ts d with Some ts => ts | None => now_ts end).

(** The Redis loop of the sidebar: [json.loads] outside the inner try.
    The loop calls [datetime.now] for each record without a usable
    timestamp; the model clock does not move during one call, so every
    such call returns the [now_ts] read before the loop. *)
Fixpoint cached_sidebar (now_ts : Z) (items : list cached_item) : option (list sidebar_row) :=
  match items with
  | [] => Some []
  | item :: rest =>
      match json_loads item, cached_sidebar now_ts rest with
      | Some d, Some res => Some (cached_row now_ts d :: res)
      | _, _ => None
      end
  end.

Definition load_recent_conversations (e : env) (user_id : string) (limit : Z)
  : M (list sidebar_row) :=
  if limit <=? 0 then ret []
  else
    r <- get_redis_client e ;;
    items <- (if r then r_lrange e (redis_key user_id) 0 (Z.max 0 (limit - 1))
              else ret None) ;;
    now_ts <- now ;;
    match match items with Some items => cached_sidebar now_ts items | None => None end with
    | Some results => ret results
    | None =>
        col <- get_mongo_collection e ;;
        rows <- (if col then m_find e user_id limit else ret None) ;;
        match rows with
        | Some rows => ret (map sidebar_of rows)
        | None =>
            local_items <- gets (fun st => local_get_recent st user_id limit) ;;
            ret (map sidebar_of (rev local_items))
        end
    end.

(** ** delete_last_conversation and clear_all_history *)

Definition delete_last_conversation (e : env) (user_id : string) : M bool :=
  r <- get_redis_client e ;;
  deleted_any <- (if r then
                    res <- r_lpop e (redis_key user_id) ;;
                    ret (match res with Some (Some _) => true | _ => false end)
                  else ret false) ;;
  col <- get_mongo_collection e ;;
  deleted_any <- (if col then
                    latest <- m_find_one e user_id ;;
                    match latest with
                    | Some (Some _) =>
                        res <- m_delete_latest e user_id ;;
                        ret (match res with Some _ => true | None => deleted_any end)
                    | _ => ret deleted_any
                    end
                  else ret deleted_any) ;;
  items <- gets (fun st => get_list (local_conversations st) user_id) ;;
  if negb deleted_any && nonempty items then
    done_ <- modify (local_pop user_id) ;;
    ret true
  else ret deleted_any.

Definition clear_all_history (e : env) (user_id : string) : M unit :=
  r <- get_redis_client e ;;
  done_ <- (if r then res <- r_delete e (redis_key user_id) ;; ret tt else ret tt) ;;
  col <- get_mongo_collection e ;;
  done_ <- (if col then res <- m_delete_many e user_id ;; ret tt else ret tt) ;;
  modify (fun st => set_local (delete user_id (local_conversations st)) st).

(** ** Sample configurations *)

Definition empty_state : state := mk_state false false ∅ ∅ ∅ 0.
Definition env_both_up : env := mk_env true true true true 0.
Definition env_both_down : env := mk_env true true false false 0.
Definition env_cache_only : env := mk_env true true true false 0.
Definition env_store_only : env := mk_env true true false true 0.

(** What the three tiers store for one user. *)
Definition user_view (st : state) (v : string)
  : option (list cached_item) * option (list turn) * option (list turn) :=
  (redis_lists st !! redis_key v, mongo_docs st !! v, local_conversations st !! v).

(** The same state with user [v]'s entries in the three tiers replaced by
    [x]: used to state that an operation on another user never reads them. *)
Definition set_user_view (v : string)
    (x : option (list cached_item) * option (list turn) * option (list turn))
    (st : state) : state :=
  mk_state (redis_client st) (mongo_collection st)
    (partial_alter (fun _ => x.1.1) (redis_key v) (redis_lists st))
    (partial_alter (fun _ => x.1.2) v (mongo_docs st))
    (partial_alter (fun _ => x.2) v (local_conversations st)) (clock st).

(** A sequence of turns saved one after the other for one user: before
    each save, [gap] milliseconds pass (0: the same millisecond). *)
Fixpoint save_all (e : env) (user_id : string) (turns : list (N * (string * string))) : M unit :=
  match turns with
  | [] => ret tt
  | (gap, (user_msg, ai_msg)) :: rest =>
      waited <- modify (elapse gap) ;;
      saved <- save_conversation e user_id user_msg ai_msg ;;
      save_all e user_id rest
  end.

(** The turns [save_all] stores, with their timestamps, starting from the
    clock [c]. *)
Fixpoint saved_turns (c : Z) (turns : list (N * (string * string))) : list turn :=
  match turns with
  | [] => []
  | (gap, (m, a)) :: rest => mk_turn m a (c + Z.of_N gap) :: saved_turns (c + Z.of_N gap) rest
  end.

(** Every save of the sequence after the first falls at least one
    millisecond after the previous one. *)
Definition distinct_ms (turns : list (N * (string * string))) : Prop :=
  Forall (fun p => (0 < p.1)%N) (tail turns).

(** A (user message, response) pair as the two role/content messages. *)
Definition pair_entries (p : string * string) : list context_entry :=
  [mk_entry RUser p.1; mk_entry RAssistant p.2].

Definition turn_pair (t : turn) : string * string := (user_message t, ai_response t).

Definition record_pair (d : record) : string * string := (rec_user d, rec_ai d).

(** Concrete inputs. *)
Definition t_old : turn := mk_turn "first question" "first answer" 0.
Definition t_new : turn := mk_turn "second question" "second answer" 1.

(** The cache list of "dave" holds a well-formed record and a malformed
    one; the durable store only has the older turn. *)
Definition st_corrupt_cache : state :=
  mk_state true true
    {[ redis_key "dave" := [json_dumps t_new; Malformed "{not json"] ]}
    {[ "dave" := [t_old] ]} ∅ 2.

(** The cache holds, above a record of [t_old], a record written by
    another client whose timestamp does not parse. *)
Definition st_untimed_cache : state :=
  mk_state true true
    {[ redis_key "dave" := [Serialized (mk_record "other question" "other answer" None); json_dumps t_old] ]}
    ∅ ∅ 5.

(** The cache is connected and holds nothing for "dave"; the other tiers
    hold a turn. *)
Definition st_cache_empty : state :=
  mk_state true true ∅ {[ "dave" := [t_old] ]} {[ "dave" := [t_old] ]} 1.

(** ** config.py: [_safe_int] and [CONTEXT_WINDOW]

    A Python [str] is the list of its code points.  [int(value)] on a
    [str] is CPython's [PyLong_FromUnicodeObject(value, 10)]: the string is
    first made ASCII by [_PyUnicode_TransformDecimalAndSpaceToASCII], then
    parsed by [PyLong_FromString], which must reach the end of it.  The
    Unicode tables are those of CPython 3.11 (Unicode 14.0); the digit
    limit is the default of [sys.set_int_max_str_digits] (CPython 3.11
    and later).  The value read by [_safe_int] here is always a [str]
    ([os.getenv] with a default), so its [TypeError] branch is not
    modelled. *)
Definition pystring := list Z.

(** A string literal of ASCII characters as code points. *)
Definition str_lit (s : string) : pystring :=
  map (fun c => Z.of_nat (nat_of_ascii c)) (list_ascii_of_string s).

(** [Py_ISSPACE]: the whitespace [PyLong_FromString] skips, \t \n \v \f
    \r and the space. *)
Definition py_isspace (c : Z) : bool := ((9 <=? c) && (c <=? 13)) || (c =? 32).

(** The code points from 127 on for which [Py_UNICODE_ISSPACE] holds. *)
Definition unicode_spaces : list Z :=
  [133; 160; 5760; 8192; 8193; 8194; 8195; 8196; 8197; 8198; 8199; 8200;
   8201; 8202; 8232; 8233; 8239; 8287; 12288].

Definition unicode_isspace (c : Z) : bool := existsb (Z.eqb c) unicode_spaces.

(** The code points from 127 on with a decimal digit value (category Nd)
    form 65 blocks of ten, the digits 0 to 9 in order; these are the
    code points of their zeros. *)
Definition decimal_zeros : list Z :=
  [1632; 1776; 1984; 2406; 2534; 2662; 2790; 2918; 3046; 3174; 3302; 3430;
   3558; 3664; 3792; 3872; 4160; 4240; 6112; 6160; 6470; 6608; 6784; 6800;
   6992; 7088; 7232; 7248; 42528; 43216; 43264; 43472; 43504; 43600; 44016;
   65296; 66720; 68912; 69734; 69872; 69942; 70096; 70384; 70736; 70864;
   71248; 71360; 71472; 71904; 72016; 72784; 73040; 73120; 92768; 92864;
   93008; 120782; 120792; 120802; 120812; 120822; 123200; 123632; 125264;
   130032].

(** [Py_UNICODE_TODECIMAL] on the code points from 127 on. *)
Definition unicode_todecimal (c : Z) : option Z :=
  match find (fun z => (z <=? c) && (c <? z + 10)) decimal_zeros with
  | Some z => Some (c - z)
  | None => None
  end.

(** The loop of [_PyUnicode_TransformDecimalAndSpaceToASCII]: code points
    below 127 are kept, a Unicode whitespace becomes a space, a decimal
    digit its ASCII digit, and any other code point ends the string with
    a '?'. *)
Fixpoint transform_chars (l : pystring) : pystring :=
  match l with
  | [] => []
  | c :: rest =>
      if c <? 127 then c :: transform_chars rest
      else if unicode_isspace c then 32 :: transform_chars rest
      else match unicode_todecimal c with
           | Some d => (48 + d) :: transform_chars rest
           | None => [63]
           end
  end.

(** An ASCII string is returned as it is. *)
Definition transform_decimal_and_space (l : pystring) : pystring :=
  if forallb (fun c => c <? 128) l then l else transform_chars l.

Fixpoint skip_spaces (l : pystring) : pystring :=
  match l with
  | c :: rest => if py_isspace c then skip_spaces rest else l
  | [] => []
  end.

Definition digit_value (c : Z) : option Z :=
  if (48 <=? c) && (c <=? 57) then Some (c - 48) else None.

(** The scan of [PyLong_FromString] in base 10 over digits and
    underscores: the value, the number of digits and the rest of the
    string, or [None] for a doubled or trailing underscore;
    [prev_underscore] tells whether the previous character was '_'. *)
Fixpoint scan_digits (l : pystring) (acc : Z) (digits : nat) (prev_underscore : bool)
  : option (Z * nat * pystring) :=
  match l with
  | c :: rest =>
      match digit_value c with
      | Some d => scan_digits rest (10 * acc + d) (S digits) false
      | None =>
          if c =? 95 then
            if prev_underscore then None else scan_digits rest acc digits true
          else if prev_underscore then None
          else Some (acc, digits, l)
      end
  | [] => if prev_underscore then None else Some (acc, digits, [])
  end.

(** [sys.get_int_max_str_digits()] by default. *)
Definition int_max_str_digits : nat := 4300.

(** [PyLong_FromString(buffer, &end, 10)] and the test of
    [PyLong_FromUnicodeObject] that [end] is the end of the buffer:
    leading whitespace, a sign, no leading underscore, the digits, at
    most [int_max_str_digits] of them and at least one, then trailing
    whitespace only.  [None] where a [ValueError] is raised. *)
Definition long_from_string (buffer : pystring) : option Z :=
  let l := skip_spaces buffer in
  let '(sign, l) :=
    match l with
    | c :: rest => if c =? 43 then (1, rest) else if c =? 45 then (-1, rest) else (1, l)
    | [] => (1, l)
    end in
  if match l with c :: _ => c =? 95 | [] => false end then None
  else
    match scan_digits l 0 0 false with
    | None => None
    | Some (v, digits, rest) =>
        if Nat.ltb int_max_str_digits digits then None
        else if Nat.eqb digits 0 then None
        else match skip_spaces rest with
             | [] => Some (sign * v)
             | _ :: _ => None
             end
    end.

(** [int(value)] on a [str]. *)
Definition py_int (value : pystring) : option Z :=
  long_from_string (transform_decimal_and_space value).

Definition safe_int (value : pystring) (default : Z) : Z :=
  match py_int value with
  | Some n => n
  | None => default
  end.

(** [CONTEXT_WINDOW = _safe_int(os.getenv("CONTEXT_WINDOW", "5"), 5)]. *)
Definition CONTEXT_WINDOW (var : option pystring) : Z :=
  safe_int (match var with Some v => v | None => str_lit "5" end) 5.

(** [str(n)], the way an integer is written into the environment: an
    optional minus sign and the decimal digits of |n| (most significant
    first, no leading zero). *)
Fixpoint digits_rev (fuel : nat) (n : N) : pystring :=
  match fuel with
  | O => []
  | S f => (48 + Z.of_N (n mod 10)) :: (if (n / 10 =? 0)%N then [] else digits_rev f (n / 10)%N)
  end.

Definition py_str (n : Z) : pystring :=
  (if n <? 0 then [45] else []) ++ rev (digits_rev (S (Z.to_nat (Z.abs n))) (Z.abs_N n)).

(** The whitespace [int()] accepts around a number: [Py_ISSPACE], and the
    Unicode whitespace from 127 on. *)
Definition int_whitespace (c : Z) : bool := py_isspace c || ((127 <=? c) && unicode_isspace c).

(** A digit for [int()]: an ASCII digit, or a decimal digit from 127 on. *)
Definition int_digit (c : Z) : bool :=
  ((48 <=? c) && (c <=? 57))
  || ((127 <=? c) && match unicode_todecimal c with Some _ => true | None => false end).

(** What [_PyUnicode_TransformDecimalAndSpaceToASCII] writes for a
    whitespace code point. *)
Definition to_space (c : Z) : Z := if c <? 127 then c else 32.

(** A character of the ASCII buffer that [PyLong_FromString] never
    consumes: none of a whitespace, a digit, an underscore or a sign. *)
Definition invalid_ascii (c : Z) : bool :=
  negb (py_isspace c) && match digit_value c with Some _ => false | None => true end
  && negb (c =? 95) && negb (c =? 43) && negb (c =? 45).

(** A code point on which [int()] always fails: none of a digit, a
    whitespace, an underscore or a sign. *)
Definition foreign_char (c : Z) : bool :=
  negb (int_whitespace c) && negb (int_digit c)
  && negb (c =? 95) && negb (c =? 43) && negb (c =? 45).

(** ** app.py: the chat session around the memory manager *)

(** A sidebar tuple as the two chat messages appended for it. *)
Definition row_entries (row : sidebar_row) : list context_entry :=
  [mk_entry RUser row.1.1; mk_entry RAssistant row.1.2].

(** "Load Long-Term Memory into Session": when the session holds no
    message, [load_recent_conversations(USER_ID, limit=20) or []] is
    replayed oldest first ([reversed(past)]). *)
Definition restore_session (e : env) (user_id : string) (messages : list context_entry)
  : M (list context_entry) :=
  if nonempty messages then ret messages
  else
    past <- load_recent_conversations e user_id 20 ;;
    ret (messages ++ flat_map row_entries (rev past)).

Definition error_reply : string := "I encountered an error generating the response.".

(** "Response Generation": the prompt is appended, the context read with
    [limit=CONTEXT_WINDOW], then the streamed reply is saved and appended;
    [reply = None] is a stream that raised, whose error text is appended
    without any save. *)
Definition chat_turn (e : env) (user_id : string) (context_window : Z)
    (prompt_text : string) (reply : option string) (messages : list context_entry)
  : M (list context_entry) :=
  let messages := messages ++ [mk_entry RUser prompt_text] in
  history <- get_context_history e user_id context_window ;;
  match reply with
  | Some full_response =>
      saved <- save_conversation e user_id prompt_text full_response ;;
      ret (messages ++ [mk_entry RAssistant full_response])
  | None => ret (messages ++ [mk_entry RAssistant error_reply])
  end.

(** "Undo Last Message": two session messages popped when there are at
    least two, then [delete_last_conversation(USER_ID)]. *)
Definition undo_last (e : env) (user_id : string) (messages : list context_entry)
  : M (list context_entry) :=
  let messages := if Nat.leb 2 (length messages) then removelast (removelast messages)
                  else messages in
  deleted <- delete_last_conversation e user_id ;;
  ret messages.

(** ** Client handle discipline

    What the lazy getters [get_redis_client] and [get_mongo_collection]
    guarantee to one operation [r] run from [st]: a ping is only issued
    when no handle is cached and the URL is set, and a cached handle is
    never dropped. *)
Definition handle_discipline {A} (e : env) (st : state) (r : A * state * list command) : Prop :=
  (In RedisPing (trace r) -> redis_client st = false /\ REDIS_URL e = true) /\
  (In MongoPing (trace r) -> mongo_collection st = false /\ MONGODB_URI e = true) /\
  (redis_client st = true -> redis_client (final r) = true) /\
  (mongo_collection st = true -> mongo_collection (final r) = true).

(** ** Proof automation *)

Ltac unfold_ops :=
  unfold save_conversation, get_context_history, get_context_from_mongo,
    load_recent_conversations, delete_last_conversation, clear_all_history,
    bind, ret, get_redis_client, get_mongo_collection,
    r_lpush, r_lrange, r_lpop, r_delete, m_insert_one, m_find, m_find_one,
    m_delete_latest, m_delete_many, local_get_recent, result, final, trace,
    now, elapse, gets, modify in *.

Ltac reduce_ops :=
  cbn [fst snd negb andb orb app redis_client mongo_collection
       redis_lists mongo_docs local_conversations clock
       set_redis_client set_mongo_collection set_redis_lists
       set_mongo_docs set_local set_clock local_append local_pop
       REDIS_URL MONGODB_URI redis_up mongo_up tie_rank] in *.

(** Destruct the scrutinee of a match that is not itself stuck on another
    match: the data the code branches on, innermost first. *)
Ltac split_innermost :=
  match goal with
  | |- context [match ?x with _ => _ end] =>
      lazymatch x with
      | context [match _ with _ => _ end] => fail
      | _ => destruct x eqn:?
      end
  end.

(** Case analysis on the configuration and on the cached handles, then
    on the data the code branches on. *)
Ltac split_tiers e st :=
  destruct e as [[] [] [] [] ?]; destruct st as [[] [] ? ? ? ?];
  unfold_ops; reduce_ops;
  repeat (split_innermost; reduce_ops; try discriminate).

(** ** Lemmas *)

(** Scenario A of the spec. *)
Example scenario_A :
  let st1 := final (save_conversation env_both_up "alice" "hi" "hello!" empty_state) in
  result (get_context_history env_both_up "alice" 5 st1)
  = [mk_entry RUser "hi"; mk_entry RAssistant "hello!"].
Proof. vm_compute. reflexivity. Qed.

(** Scenario B of the spec. *)
Example scenario_B :
  let st1 := final (save_conversation env_both_up "bob" "T1" "R1" empty_state) in
  let st2 := final (save_conversation env_both_up "bob" "T2" "R2" (elapse 1 st1)) in
  let st3 := final (save_conversation env_both_up "bob" "T3" "R3" (elapse 1 st2)) in
  result (load_recent_conversations env_both_up "bob" 2 st3)
  = [("T3", "R3", 2); ("T2", "R2", 1)].
Proof. vm_compute. reflexivity. Qed.

Lemma redis_key_inj (u v : string) : redis_key u = redis_key v -> u = v.
Proof. unfold redis_key; intros H; exact (inj (String.app "conversation:") u v H). Qed.

Lemma redis_key_ne (u v : string) : u <> v -> redis_key u <> redis_key v.
Proof. intros Hne Hk; apply Hne, redis_key_inj, Hk. Qed.


Lemma get_list_alter_ne {A} (f : option (list A) -> option (list A))
    (m : gmap string (list A)) (k k' : string) :
  k <> k' -> get_list (partial_alter f k m) k' = get_list m k'.
Proof. intros H. unfold get_list. rewrite lookup_partial_alter_ne by exact H. reflexivity. Qed.

Ltac frame_close :=
  rewrite ?lookup_insert_ne, ?lookup_delete_ne by congruence; reflexivity.

Ltac split_tiers_alt e st :=
  destruct e as [[] [] [] [] ?]; destruct st as [[] [] ? ? ? ?];
  unfold_ops; unfold set_user_view in *; reduce_ops;
  repeat (rewrite ?get_list_alter_ne by congruence; split_innermost; reduce_ops;
          try discriminate).

Ltac indep_close :=
  rewrite ?get_list_alter_ne by congruence;
  split; [reflexivity|];
  simplify_map_eq; rewrite ?lookup_partial_alter_ne by congruence; reflexivity.

Lemma save_conversation_frame (e : env) (u v m a : string) (st : state) :
  u <> v -> user_view (final (save_conversation e u m a st)) v = user_view st v.
Proof.
  intros Hne; pose proof (redis_key_ne u v Hne) as Hk.
  unfold user_view. split_tiers e st; frame_close.
Qed.

Lemma save_conversation_indep (e : env) (u v m a : string) x (st : state) :
  u <> v ->
  result (save_conversation e u m a (set_user_view v x st)) = result (save_conversation e u m a st) /\
  user_view (final (save_conversation e u m a (set_user_view v x st))) u
  = user_view (final (save_conversation e u m a st)) u.
Proof.
  intros Hne; pose proof (redis_key_ne u v Hne) as Hk.
  unfold user_view. split_tiers_alt e st; indep_close.
Qed.

Lemma delete_last_conversation_frame (e : env) (u v : string) (st : state) :
  u <> v -> user_view (final (delete_last_conversation e u st)) v = user_view st v.
Proof.
  intros Hne; pose proof (redis_key_ne u v Hne) as Hk.
  unfold user_view. split_tiers e st; frame_close.
Qed.

Lemma delete_last_conversation_indep (e : env) (u v : string) x (st : state) :
  u <> v ->
  result (delete_last_conversation e u (set_user_view v x st)) = result (delete_last_conversation e u st) /\
  user_view (final (delete_last_conversation e u (set_user_view v x st))) u
  = user_view (final (delete_last_conversation e u st)) u.
Proof.
  intros Hne; pose proof (redis_key_ne u v Hne) as Hk.
  unfold user_view. split_tiers_alt e st; indep_close.
Qed.

Lemma clear_all_history_frame (e : env) (u v : string) (st : state) :
  u <> v -> user_view (final (clear_all_history e u st)) v = user_view st v.
Proof.
  intros Hne; pose proof (redis_key_ne u v Hne) as Hk.
  unfold user_view. split_tiers e st; frame_close.
Qed.

Lemma clear_all_history_indep (e : env) (u v : string) x (st : state) :
  u <> v ->
  result (clear_all_history e u (set_user_view v x st)) = result (clear_all_history e u st) /\
  user_view (final (clear_all_history e u (set_user_view v x st))) u
  = user_view (final (clear_all_history e u st)) u.
Proof.
  intros Hne; pose proof (redis_key_ne u v Hne) as Hk.
  unfold user_view. split_tiers_alt e st; indep_close.
Qed.

Lemma lrange_first {A} (l : list A) (limit : Z) :
  0 < limit -> lrange l 0 (Z.max 0 (limit - 1)) = firstn (Z.to_nat limit) l.
Proof.
  intros H. unfold lrange. rewrite Z.max_r by lia. cbn [skipn].
  f_equal. lia.
Qed.

Ltac zleb :=
  repeat match goal with
  | H : (_ <=? _) = true |- _ => apply Z.leb_le in H
  | H : (_ <=? _) = false |- _ => apply Z.leb_gt in H
  end; try lia.

Ltac split_reads e st :=
  unfold cache_works, store_works in *;
  destruct e as [[] [] [] [] ?]; destruct st as [[] [] ? ? ? ?];
  unfold_ops; reduce_ops; rewrite ?lrange_first by lia;
  repeat (rewrite ?lrange_first by lia; split_innermost; reduce_ops; try discriminate);
  zleb; rewrite ?lrange_first in * by lia.

(** The read path of [get_context_history] below the cache. *)
Lemma get_context_after_cache_failure (e : env) u limit st :
  0 < limit ->
  (cache_works e st = false \/
   cached_history (rev (firstn (Z.to_nat limit) (get_list (redis_lists st) (redis_key u)))) = None) ->
  result (get_context_history e u limit st) =
    (let mongo_hist :=
       if store_works e st
       then flat_map expand (rev (firstn (Z.to_nat limit) (get_list (mongo_docs st) u)))
       else [] in
     match mongo_hist with
     | [] => flat_map expand (local_get_recent st u limit)
     | _ :: _ => mongo_hist
     end).
Proof.
  intros Hl Hc. split_reads e st; destruct Hc; try discriminate; try congruence.
Qed.

(** The read path of [load_recent_conversations] below the cache. *)
Lemma load_recent_after_cache_failure (e : env) u limit st :
  0 < limit ->
  (cache_works e st = false \/
   cached_sidebar (clock st) (firstn (Z.to_nat limit) (get_list (redis_lists st) (redis_key u))) = None) ->
  result (load_recent_conversations e u limit st) =
    (if store_works e st
     then map sidebar_of (firstn (Z.to_nat limit) (get_list (mongo_docs st) u))
     else map sidebar_of (rev (local_get_recent st u limit))).
Proof.
  intros Hl Hc. split_reads e st; destruct Hc; try discriminate; try congruence.
Qed.

(** The cache answers [get_context_history] when it serves the call and
    every record of the window decodes. *)
Lemma get_context_cache_hit (e : env) u limit st h :
  0 < limit -> cache_works e st = true ->
  cached_history (rev (firstn (Z.to_nat limit) (get_list (redis_lists st) (redis_key u)))) = Some h ->
  result (get_context_history e u limit st) = h /\
  Forall (fun c => is_mongo_command c = false) (trace (get_context_history e u limit st)).
Proof.
  intros Hl Hw Hc. split_reads e st; try congruence;
    split; try congruence; repeat constructor.
Qed.

Lemma load_recent_cache_hit (e : env) u limit st res :
  0 < limit -> cache_works e st = true ->
  cached_sidebar (clock st) (firstn (Z.to_nat limit) (get_list (redis_lists st) (redis_key u))) = Some res ->
  result (load_recent_conversations e u limit st) = res.
Proof.
  intros Hl Hw Hc. split_reads e st; congruence.
Qed.

(** ** Decoding, list and state lemmas *)

Lemma cached_history_None (l : list cached_item) :
  cached_history l = None <-> Exists (fun c => json_loads c = None) l.
Proof.
  induction l as [|c l IH]; cbn.
  - split; [discriminate | intros H; inversion H].
  - rewrite Exists_cons. destruct (json_loads c), (cached_history l); cbn;
      intuition (try discriminate; try congruence).
Qed.

Lemma cached_sidebar_None (n : Z) (l : list cached_item) :
  cached_sidebar n l = None <-> Exists (fun c => json_loads c = None) l.
Proof.
  induction l as [|c l IH]; cbn.
  - split; [discriminate | intros H; inversion H].
  - rewrite Exists_cons. destruct (json_loads c), (cached_sidebar n l); cbn;
      intuition (try discriminate; try congruence).
Qed.

Lemma cached_history_decoded (l : list cached_item) (ds : list record) :
  map json_loads l = map Some ds -> cached_history l = Some (flat_map record_entries ds).
Proof.
  revert ds; induction l as [|c l IH]; intros [|d ds] H; cbn in H |- *;
    try discriminate; [reflexivity|].
  injection H as Hc Hl. rewrite Hc, (IH ds Hl). reflexivity.
Qed.

Lemma cached_sidebar_decoded (n : Z) (l : list cached_item) (ds : list record) :
  map json_loads l = map Some ds -> cached_sidebar n l = Some (map (cached_row n) ds).
Proof.
  revert ds; induction l as [|c l IH]; intros [|d ds] H; cbn in H |- *;
    try discriminate; [reflexivity|].
  injection H as Hc Hl. rewrite Hc, (IH ds Hl). reflexivity.
Qed.

Lemma json_loads_serialized (l : list record) :
  map json_loads (map Serialized l) = map Some l.
Proof. induction l as [|d l IH]; cbn; [reflexivity | rewrite IH; reflexivity]. Qed.

Lemma json_loads_dumps (l : list turn) :
  map json_loads (map json_dumps l)
  = map Some (map (fun t => mk_record (user_message t) (ai_response t) (Some (timestamp t))) l).
Proof. induction l as [|t l IH]; cbn; [reflexivity | rewrite IH; reflexivity]. Qed.

Lemma cached_history_map (l : list turn) :
  cached_history (map json_dumps l) = Some (flat_map expand l).
Proof.
  rewrite (cached_history_decoded _ _ (json_loads_dumps l)).
  f_equal. induction l as [|t l IH]; cbn; [reflexivity | rewrite IH; reflexivity].
Qed.

Lemma cached_sidebar_map (n : Z) (l : list turn) :
  cached_sidebar n (map json_dumps l) = Some (map sidebar_of l).
Proof.
  rewrite (cached_sidebar_decoded _ _ _ (json_loads_dumps l)).
  f_equal. induction l as [|t l IH]; cbn; [reflexivity | rewrite IH; reflexivity].
Qed.

Lemma insert_by_ts_newest (k : nat) (t : turn) (l : list turn) :
  Forall (fun x => timestamp x < timestamp t) l -> insert_by_ts k t l = t :: l.
Proof.
  destruct l as [|x l]; intros H; [reflexivity|].
  inversion H as [|? ? Hx _]; subst. cbn.
  rewrite (proj2 (Z.ltb_lt _ _) Hx). reflexivity.
Qed.

Lemma flat_map_expand_pairs (l : list turn) :
  flat_map expand l = flat_map pair_entries (map turn_pair l).
Proof. induction l as [|t l IH]; cbn; [reflexivity | rewrite IH; reflexivity]. Qed.

Lemma length_pair_entries (l : list (string * string)) :
  length (flat_map pair_entries l) = (2 * length l)%nat.
Proof. induction l as [|p l IH]; cbn; [reflexivity | rewrite IH; lia]. Qed.

Lemma get_list_insert_eq {A} (m : gmap string (list A)) (k : string) (l : list A) :
  get_list (<[k := l]> m) k = l.
Proof. unfold get_list. rewrite lookup_insert_eq. reflexivity. Qed.

Lemma get_list_delete_eq {A} (m : gmap string (list A)) (k : string) :
  get_list (delete k m) k = [].
Proof. unfold get_list. rewrite lookup_delete_eq. reflexivity. Qed.

Lemma bind_final {A B} (m : M A) (k : A -> M B) (st : state) :
  final (bind m k st) = final (k (result (m st)) (final (m st))).
Proof.
  unfold bind, final, result. destruct (m st) as [[a st1] t1].
  cbn. destruct (k a st1) as [[b st2] t2]. reflexivity.
Qed.

(** One save: what each tier holds for the user afterwards. *)
Lemma save_step (e : env) u m a st :
  let r := save_conversation e u m a st in
  let t := mk_turn m a (clock st) in
  result r = true /\
  cache_works e (final r) = cache_works e st /\
  store_works e (final r) = store_works e st /\
  get_list (redis_lists (final r)) (redis_key u)
  = (if cache_works e st then [json_dumps t] else []) ++ get_list (redis_lists st) (redis_key u) /\
  get_list (mongo_docs (final r)) u
  = (if store_works e st then insert_by_ts (tie_rank e) t (get_list (mongo_docs st) u)
     else get_list (mongo_docs st) u) /\
  get_list (local_conversations (final r)) u
  = get_list (local_conversations st) u
    ++ (if cache_works e st || store_works e st then [] else [t]) /\
  clock (final r) = clock st.
Proof.
  cbv zeta. unfold cache_works, store_works.
  split_tiers e st; rewrite ?get_list_insert_eq, ?app_nil_r; repeat split.
Qed.

Lemma save_all_cons_final e u g m a rest st :
  final (save_all e u ((g, (m, a)) :: rest) st)
  = final (save_all e u rest (final (save_conversation e u m a (elapse g st)))).
Proof. cbn [save_all]. rewrite !bind_final. reflexivity. Qed.

(** A sequence of saves under one configuration: what the cache and the
    fallback store hold, and that the durable store is untouched when it
    does not answer. *)
Lemma save_all_spec (e : env) u (turns : list (N * (string * string))) st :
  let ts := saved_turns (clock st) turns in
  map turn_pair ts = map snd turns /\
  cache_works e (final (save_all e u turns st)) = cache_works e st /\
  store_works e (final (save_all e u turns st)) = store_works e st /\
  get_list (redis_lists (final (save_all e u turns st))) (redis_key u)
  = (if cache_works e st then rev (map json_dumps ts) else [])
    ++ get_list (redis_lists st) (redis_key u) /\
  (store_works e st = false ->
   get_list (mongo_docs (final (save_all e u turns st))) u = get_list (mongo_docs st) u) /\
  get_list (local_conversations (final (save_all e u turns st))) u
  = get_list (local_conversations st) u
    ++ (if cache_works e st || store_works e st then [] else ts).
Proof.
  cbv zeta. revert st. induction turns as [|[g [m a]] rest IH]; intros st.
  - unfold final, ret; cbn.
    destruct (cache_works e st), (store_works e st); cbn; rewrite ?app_nil_r;
      repeat split.
  - rewrite save_all_cons_final.
    destruct (save_step e u m a (elapse g st)) as (_ & Hc & Hs & Hr & Hm & Hl & Hclk).
    set (st1 := final (save_conversation e u m a (elapse g st))) in *.
    destruct (IH st1) as (Hts & Hc' & Hs' & Hr' & Hm' & Hl').
    change (cache_works e (elapse g st)) with (cache_works e st) in *.
    change (store_works e (elapse g st)) with (store_works e st) in *.
    change (get_list (redis_lists (elapse g st))) with (get_list (redis_lists st)) in *.
    change (get_list (mongo_docs (elapse g st))) with (get_list (mongo_docs st)) in *.
    change (get_list (local_conversations (elapse g st)))
      with (get_list (local_conversations st)) in *.
    change (clock (elapse g st)) with (clock st + Z.of_N g) in *.
    cbn [saved_turns]. rewrite Hclk in Hts, Hr', Hl'.
    rewrite Hc', Hs', Hr', Hl', Hc, Hs, Hr, Hl. rewrite Hs in Hm'.
    repeat split.
    + cbn. rewrite Hts. reflexivity.
    + destruct (cache_works e st); cbn; rewrite <- ?app_assoc; reflexivity.
    + intros Hsf. rewrite (Hm' Hsf), Hm, Hsf. reflexivity.
    + destruct (cache_works e st), (store_works e st); cbn;
        rewrite <- ?app_assoc; reflexivity.
Qed.

(** The durable store after saves at least one millisecond apart, all
    later than its documents: the new documents come first, newest
    first. *)
Lemma save_all_mongo_spaced (e : env) u (turns : list (N * (string * string))) st :
  store_works e st = true ->
  Forall (fun p => (0 < p.1)%N) turns ->
  Forall (fun x => timestamp x <= clock st) (get_list (mongo_docs st) u) ->
  get_list (mongo_docs (final (save_all e u turns st))) u
  = rev (saved_turns (clock st) turns) ++ get_list (mongo_docs st) u.
Proof.
  revert st. induction turns as [|[g [m a]] rest IH]; intros st Hs Hg Hold.
  - reflexivity.
  - inversion Hg as [|? ? Hg0 Hrest]; subst. cbn in Hg0.
    rewrite save_all_cons_final.
    destruct (save_step e u m a (elapse g st)) as (_ & _ & Hs1 & _ & Hm & _ & Hclk).
    set (st1 := final (save_conversation e u m a (elapse g st))) in *.
    change (store_works e (elapse g st)) with (store_works e st) in *.
    change (get_list (mongo_docs (elapse g st))) with (get_list (mongo_docs st)) in *.
    change (clock (elapse g st)) with (clock st + Z.of_N g) in *.
    rewrite Hs in Hm, Hs1.
    rewrite insert_by_ts_newest in Hm.
    2: { eapply Forall_impl; [exact Hold|]. cbn. intros x Hx. lia. }
    rewrite (IH st1 Hs1 Hrest).
    + rewrite Hm, Hclk. cbn [saved_turns rev]. rewrite <- app_assoc. reflexivity.
    + rewrite Hm, Hclk. constructor; [cbn; lia|].
      eapply Forall_impl; [exact Hold|]. cbn. intros x Hx. lia.
Qed.

(** The same when only the saves after the first are at least one
    millisecond apart and the documents are older than the first save. *)
Lemma save_all_mongo (e : env) u (turns : list (N * (string * string))) st :
  store_works e st = true -> distinct_ms turns ->
  Forall (fun x => timestamp x < clock st) (get_list (mongo_docs st) u) ->
  get_list (mongo_docs (final (save_all e u turns st))) u
  = rev (saved_turns (clock st) turns) ++ get_list (mongo_docs st) u.
Proof.
  unfold distinct_ms. intros Hs Hg Hold.
  destruct turns as [|[g [m a]] rest]; [reflexivity|]. cbn [tail] in Hg.
  rewrite save_all_cons_final.
  destruct (save_step e u m a (elapse g st)) as (_ & _ & Hs1 & _ & Hm & _ & Hclk).
  set (st1 := final (save_conversation e u m a (elapse g st))) in *.
  change (store_works e (elapse g st)) with (store_works e st) in *.
  change (get_list (mongo_docs (elapse g st))) with (get_list (mongo_docs st)) in *.
  change (clock (elapse g st)) with (clock st + Z.of_N g) in *.
  rewrite Hs in Hm, Hs1.
  rewrite insert_by_ts_newest in Hm.
  2: { eapply Forall_impl; [exact Hold|]. cbn. intros x Hx. lia. }
  rewrite (save_all_mongo_spaced e u rest st1 Hs1 Hg).
  + rewrite Hm, Hclk. cbn [saved_turns rev]. rewrite <- app_assoc. reflexivity.
  + rewrite Hm, Hclk. constructor; [cbn; lia|].
    eapply Forall_impl; [exact Hold|]. cbn. intros x Hx. lia.
Qed.

Lemma skipn_nonempty {A} (l : list A) (j : nat) :
  (j < length l)%nat -> skipn j l <> [].
Proof.
  intros Hj Hnil. pose proof (length_skipn j l) as Hlen.
  rewrite Hnil in Hlen. cbn in Hlen. lia.
Qed.

Lemma flat_map_expand_nonempty (l : list turn) :
  l <> [] -> exists c rest, flat_map expand l = c :: rest.
Proof. destruct l as [|t l]; [congruence|]. intros _. cbn. eauto. Qed.

(** ** C2: chronological reconstruction and bounded window *)

(** C2 (counterexample): the claim for every sequence of saves fails in
    two ways.  When the tiers change between saves: turn 1 is written to
    the cache only (durable store down), turn 2 to the durable store only
    (cache down); with both tiers reachable, [get_context] with limit 2
    answers from the cache and returns two entries, not four.  When two
    saves fall in the same millisecond and only the durable store answers,
    its sort may return the earlier turn first: [get_context] with limit 1
    returns turn 1, not the last saved turn 2. *)
Lemma c2_mixed_availability_counterexample :
  (let st1 := final (save_conversation env_cache_only "bob" "T1" "R1" empty_state) in
   let st2 := final (save_conversation env_store_only "bob" "T2" "R2" (elapse 1 st1)) in
   result (get_context_history env_both_up "bob" 2 st2)
   = [mk_entry RUser "T1"; mk_entry RAssistant "R1"]) /\
  (let env_tie := mk_env true true false true 1 in
   let st1 := final (save_conversation env_tie "bob" "T1" "R1" empty_state) in
   let st2 := final (save_conversation env_tie "bob" "T2" "R2" st1) in
   result (get_context_history env_tie "bob" 1 st2)
   = [mk_entry RUser "T1"; mk_entry RAssistant "R1"]).
Proof. split; vm_compute; reflexivity. Qed.

(** C2 (amended): when the N saves of a user with no prior history and the
    read all run under one availability configuration, and the saves fall
    in distinct milliseconds in case only the durable store answers,
    [get_context] with 0 < k <= N returns exactly 2k entries: the k most
    recently saved turns, oldest first, each as (user, assistant). *)
Theorem context_window_fixed_configuration (e : env) (u : string)
    (turns : list (N * (string * string))) (k : Z) (st : state) :
  get_list (redis_lists st) (redis_key u) = [] ->
  get_list (mongo_docs st) u = [] ->
  get_list (local_conversations st) u = [] ->
  (cache_works e st = true \/ store_works e st = false \/ distinct_ms turns) ->
  0 < k -> (Z.to_nat k <= length turns)%nat ->
  result (get_context_history e u k (final (save_all e u turns st)))
  = flat_map pair_entries (skipn (length turns - Z.to_nat k) (map snd turns)) /\
  length (result (get_context_history e u k (final (save_all e u turns st))))
  = (2 * Z.to_nat k)%nat.
Proof.
  intros Hr0 Hm0 Hl0 Hcfg Hk HkN.
  destruct (save_all_spec e u turns st) as (Hts & Hc & Hs & Hr & _ & Hl).
  pose proof (save_all_mongo e u turns st) as Hmongo.
  set (ts := saved_turns (clock st) turns) in *.
  set (st' := final (save_all e u turns st)) in *.
  rewrite Hr0, app_nil_r in Hr. rewrite Hl0 in Hl. rewrite Hm0, app_nil_r in Hmongo.
  cbn [app] in Hl.
  assert (Hlen : length ts = length turns).
  { rewrite <- (length_map turn_pair ts), Hts, length_map. reflexivity. }
  assert (Hwin : flat_map expand (skipn (length ts - Z.to_nat k) ts)
                 = flat_map pair_entries (skipn (length turns - Z.to_nat k) (map snd turns))).
  { rewrite flat_map_expand_pairs, <- skipn_map, Hts, Hlen. reflexivity. }
  enough (Hres : result (get_context_history e u k st')
                 = flat_map pair_entries (skipn (length turns - Z.to_nat k) (map snd turns))).
  { split; [exact Hres|]. rewrite Hres, length_pair_entries, length_skipn, length_map. lia. }
  rewrite <- Hwin.
  destruct (cache_works e st) eqn:Ec.
  - refine (proj1 (get_context_cache_hit e u k st' _ Hk Hc _)).
    rewrite Hr, firstn_rev, rev_involutive, length_map, skipn_map.
    apply cached_history_map.
  - rewrite (get_context_after_cache_failure e u k st' Hk (or_introl Hc)).
    cbv zeta. rewrite Hs.
    destruct (store_works e st) eqn:Es.
    + rewrite Hmongo; [|reflexivity| |constructor].
      2: { destruct Hcfg as [H | [H | H]]; [discriminate | discriminate | exact H]. }
      rewrite firstn_rev, rev_involutive.
      destruct (flat_map_expand_nonempty (skipn (length ts - Z.to_nat k) ts))
        as (c & rest & Hne).
      { apply skipn_nonempty. lia. }
      rewrite Hne. reflexivity.
    + unfold local_get_recent. rewrite Hl.
      destruct (k <=? 0) eqn:Ek; [apply Z.leb_le in Ek; lia|]. reflexivity.
Qed.

Lemma Exists_rev_intro {A} (P : A -> Prop) (l : list A) :
  Exists P l -> Exists P (rev l).
Proof.
  induction 1 as [x l Hx | x l _ IH]; cbn; apply Exists_app;
    [right; constructor; exact Hx | left; exact IH].
Qed.

Lemma skipn_snoc {A} (l : list A) (x : A) (j : nat) :
  (j <= length l)%nat -> skipn j (l ++ [x]) = skipn j l ++ [x].
Proof.
  intros Hj. rewrite skipn_app. replace (j - length l)%nat with 0%nat by lia.
  reflexivity.
Qed.

Lemma context_window_fixed_configuration_witness :
  get_list (redis_lists empty_state) (redis_key "bob") = [] /\
  get_list (mongo_docs empty_state) "bob" = [] /\
  get_list (local_conversations empty_state) "bob" = [] /\
  (cache_works env_store_only empty_state = true \/ store_works env_store_only empty_state = false \/
   distinct_ms [(0%N, ("T1", "R1")); (1%N, ("T2", "R2")); (1%N, ("T3", "R3"))]) /\
  0 < 2 /\ (Z.to_nat 2 <= length [(0%N, ("T1", "R1")); (1%N, ("T2", "R2")); (1%N, ("T3", "R3"))])%nat /\
  (result (get_context_history env_store_only "bob" 2
             (final (save_all env_store_only "bob"
                       [(0%N, ("T1", "R1")); (1%N, ("T2", "R2")); (1%N, ("T3", "R3"))] empty_state)))
   = flat_map pair_entries
       (skipn (length [(0%N, ("T1", "R1")); (1%N, ("T2", "R2")); (1%N, ("T3", "R3"))] - Z.to_nat 2)
          (map snd [(0%N, ("T1", "R1")); (1%N, ("T2", "R2")); (1%N, ("T3", "R3"))])) /\
   length (result (get_context_history env_store_only "bob" 2
             (final (save_all env_store_only "bob"
                       [(0%N, ("T1", "R1")); (1%N, ("T2", "R2")); (1%N, ("T3", "R3"))] empty_state))))
   = (2 * Z.to_nat 2)%nat).
Proof.
  assert (Hd : distinct_ms [(0%N, ("T1", "R1")); (1%N, ("T2", "R2")); (1%N, ("T3", "R3"))]).
  { unfold distinct_ms. cbn. repeat constructor. }
  split; [reflexivity|]. split; [reflexivity|]. split; [reflexivity|].
  split; [right; right; exact Hd|].
  split; [lia|]. split; [vm_compute; lia|].
  apply (context_window_fixed_configuration env_store_only "bob"
           [(0%N, ("T1", "R1")); (1%N, ("T2", "R2")); (1%N, ("T3", "R3"))] 2 empty_state);
    [reflexivity | reflexivity | reflexivity | right; right; exact Hd | lia | vm_compute; lia].
Defined.

(** ** C1: total-outage fallback *)

(** C1 (counterexample): the turn saved during a total outage lives only in
    the fallback store; once the cache is reachable again, [get_context]
    answers from the (empty) cache and does not return it. *)
Lemma c1_cache_back_counterexample :
  let r := save_conversation env_both_down "carol" "hi" "hello" empty_state in
  result r = true /\
  local_conversations (final r) !! "carol" = Some [mk_turn "hi" "hello" 0] /\
  result (get_context_history env_cache_only "carol" 5 (final r)) = [].
Proof. vm_compute. repeat split. Qed.

(** C1 (amended): if both external tiers fail for the save, the turn is
    appended to the fallback store, the cache list is left as it was, and
    [save_conversation] returns true.  A following [get_context] with
    limit >= 1 returns the fallback history (the last [limit] turns of the
    fallback list, ending with the turn's (user, assistant) entries) when,
    during the read, the cache fails or holds a malformed record in its
    window, and the durable store fails or has no rows for the user.  When
    the cache serves the read and its window decodes, [get_context]
    returns the records of that window, which the save did not change. *)
Theorem save_in_outage_then_read (e e' : env) (u m a : string) (st : state) (limit : Z) :
  cache_works e st = false -> store_works e st = false -> 0 < limit ->
  let st1 := final (save_conversation e u m a st) in
  let old := get_list (local_conversations st) u in
  result (save_conversation e u m a st) = true /\
  get_list (local_conversations st1) u = old ++ [mk_turn m a (clock st)] /\
  get_list (redis_lists st1) (redis_key u) = get_list (redis_lists st) (redis_key u) /\
  ((cache_works e' st1 = false \/
    Exists (fun c => json_loads c = None)
      (firstn (Z.to_nat limit) (get_list (redis_lists st) (redis_key u)))) ->
   (store_works e' st1 = false \/ get_list (mongo_docs st) u = []) ->
   result (get_context_history e' u limit st1) = flat_map expand (local_get_recent st1 u limit) /\
   flat_map expand (local_get_recent st1 u limit)
   = flat_map expand (skipn (S (length old) - Z.to_nat limit) old)
     ++ [mk_entry RUser m; mk_entry RAssistant a]) /\
  (forall ds : list record,
   cache_works e' st1 = true ->
   map json_loads (firstn (Z.to_nat limit) (get_list (redis_lists st) (redis_key u))) = map Some ds ->
   result (get_context_history e' u limit st1) = flat_map record_entries (rev ds)).
Proof.
  intros Hc Hs Hl. cbv zeta.
  destruct (save_step e u m a st) as (Hres & _ & _ & Hr & Hm & Hloc & _).
  set (st1 := final (save_conversation e u m a st)) in *.
  rewrite Hc in Hr; rewrite Hs in Hm; rewrite Hc, Hs in Hloc. cbn [orb app] in Hr, Hloc.
  split; [exact Hres|]. split; [exact Hloc|]. split; [exact Hr|]. split.
  - intros Hc' Hs'.
    rewrite (get_context_after_cache_failure e' u limit st1 Hl).
    2: { destruct Hc' as [Hc' | Hbad]; [left; exact Hc'|right].
         rewrite Hr. apply cached_history_None, Exists_rev_intro, Hbad. }
    cbv zeta.
    assert (Hmongo : (if store_works e' st1
                      then flat_map expand (rev (firstn (Z.to_nat limit) (get_list (mongo_docs st1) u)))
                      else []) = []).
    { destruct Hs' as [Hs' | Hm0]; rewrite ?Hs'; [reflexivity|].
      destruct (store_works e' st1); [|reflexivity].
      rewrite Hm, Hm0, firstn_nil. reflexivity. }
    rewrite Hmongo. split; [reflexivity|].
    unfold local_get_recent. rewrite Hloc.
    destruct (limit <=? 0) eqn:Ek; [apply Z.leb_le in Ek; lia|].
    rewrite length_app. cbn [length]. rewrite Nat.add_1_r.
    rewrite skipn_snoc by lia. rewrite flat_map_app. reflexivity.
  - intros ds Hc' Hdec.
    refine (proj1 (get_context_cache_hit e' u limit st1 _ Hl Hc' _)).
    apply cached_history_decoded. rewrite Hr, map_rev, Hdec, map_rev. reflexivity.
Qed.

Lemma save_in_outage_then_read_witness :
  cache_works env_both_down empty_state = false /\
  store_works env_both_down empty_state = false /\ 0 < 5 /\
  (let st1 := final (save_conversation env_both_down "carol" "hi" "hello" empty_state) in
   let old := get_list (local_conversations empty_state) "carol" in
   result (save_conversation env_both_down "carol" "hi" "hello" empty_state) = true /\
   get_list (local_conversations st1) "carol" = old ++ [mk_turn "hi" "hello" (clock empty_state)] /\
   get_list (redis_lists st1) (redis_key "carol")
   = get_list (redis_lists empty_state) (redis_key "carol") /\
   ((cache_works env_both_down st1 = false \/
     Exists (fun c => json_loads c = None)
       (firstn (Z.to_nat 5) (get_list (redis_lists empty_state) (redis_key "carol")))) ->
    (store_works env_both_down st1 = false \/ get_list (mongo_docs empty_state) "carol" = []) ->
    result (get_context_history env_both_down "carol" 5 st1)
    = flat_map expand (local_get_recent st1 "carol" 5) /\
    flat_map expand (local_get_recent st1 "carol" 5)
    = flat_map expand (skipn (S (length old) - Z.to_nat 5) old)
      ++ [mk_entry RUser "hi"; mk_entry RAssistant "hello"]) /\
   (forall ds : list record,
    cache_works env_both_down st1 = true ->
    map json_loads (firstn (Z.to_nat 5) (get_list (redis_lists empty_state) (redis_key "carol")))
    = map Some ds ->
    result (get_context_history env_both_down "carol" 5 st1) = flat_map record_entries (rev ds))).
Proof.
  split; [reflexivity|]. split; [reflexivity|]. split; [lia|].
  exact (save_in_outage_then_read env_both_down env_both_down "carol" "hi" "hello" empty_state 5
           eq_refl eq_refl ltac:(lia)).
Defined.

(** ** C3: a reachable cache is final *)

(** C3 (counterexample): the cache is reachable and its LRANGE succeeds,
    but one record of the window does not decode; [get_context] then falls
    through to the durable store, issues a [find] there and returns the
    durable store's turn. *)
Lemma c3_decode_failure_counterexample :
  In (LRange (redis_key "dave") 0 4) (trace (get_context_history env_both_up "dave" 5 st_corrupt_cache)) /\
  In (Find "dave" 5) (trace (get_context_history env_both_up "dave" 5 st_corrupt_cache)) /\
  result (get_context_history env_both_up "dave" 5 st_corrupt_cache) = expand t_old.
Proof. vm_compute. split; [left; reflexivity|]. split; [right; left; reflexivity|]. reflexivity. Qed.

(** C3 (amended): if the cache serves the call, its range-read succeeds
    and every record of the window decodes, [get_context] returns the
    cache-derived result, the empty sequence for an empty cache list
    included, and issues no command to the durable store. *)
Theorem cache_read_is_final (e : env) (u : string) (limit : Z) (st : state) (w : list record) :
  0 < limit -> cache_works e st = true ->
  firstn (Z.to_nat limit) (get_list (redis_lists st) (redis_key u)) = map Serialized w ->
  result (get_context_history e u limit st) = flat_map record_entries (rev w) /\
  Forall (fun c => is_mongo_command c = false) (trace (get_context_history e u limit st)).
Proof.
  intros Hl Hw Hwin. apply get_context_cache_hit; [exact Hl | exact Hw |].
  rewrite Hwin, <- map_rev. apply cached_history_decoded, json_loads_serialized.
Qed.

Lemma cache_read_is_final_witness :
  0 < 5 /\ cache_works env_both_up st_cache_empty = true /\
  firstn (Z.to_nat 5) (get_list (redis_lists st_cache_empty) (redis_key "dave")) = map Serialized [] /\
  (result (get_context_history env_both_up "dave" 5 st_cache_empty) = flat_map record_entries (rev []) /\
   Forall (fun c => is_mongo_command c = false)
     (trace (get_context_history env_both_up "dave" 5 st_cache_empty))).
Proof.
  split; [lia|]. split; [reflexivity|]. split; [vm_compute; reflexivity|].
  apply (cache_read_is_final env_both_up "dave" 5 st_cache_empty []);
    [lia | reflexivity | vm_compute; reflexivity].
Defined.

(** ** C4: the two read ladders *)

(** C4 (code defect): after a turn was saved during a total outage, with
    the cache still down and the durable store reachable again but empty
    for the user, [get_context] falls through to the fallback store (its
    [if mongo_hist:] test) while [load_recent] returns the durable store's
    empty answer. *)
Theorem read_ladders_diverge_on_empty_store :
  let st1 := final (save_conversation env_both_down "erin" "hi" "hello" empty_state) in
  result (get_context_history env_store_only "erin" 5 st1)
  = [mk_entry RUser "hi"; mk_entry RAssistant "hello"] /\
  result (load_recent_conversations env_store_only "erin" 5 st1) = [].
Proof. vm_compute. split; reflexivity. Qed.

(** ** C5: malformed cached records *)

(** C5 (counterexample): the well-formed record [t_new] of the cache is not
    returned; both reads answer from the durable store. *)
Lemma c5_malformed_record_counterexample :
  result (get_context_history env_both_up "dave" 5 st_corrupt_cache) = expand t_old /\
  result (load_recent_conversations env_both_up "dave" 5 st_corrupt_cache)
  = [sidebar_of t_old].
Proof. vm_compute. split; reflexivity. Qed.

(** C5 (amended): one malformed record in the cache window makes both
    reads behave as if the cache were unreachable: the whole cache result
    is dropped and the reads fall through to the durable store, then the
    fallback store.  When every record of the window decodes, a record
    whose timestamp is missing or does not parse is kept: [get_context]
    does not look at timestamps, and [load_recent] shows the current time
    for it. *)
Theorem malformed_record_drops_cache_tier (e : env) (u : string) (limit : Z) (st : state) :
  0 < limit ->
  let e_down := mk_env (REDIS_URL e) (MONGODB_URI e) false (mongo_up e) (tie_rank e) in
  let window := firstn (Z.to_nat limit) (get_list (redis_lists st) (redis_key u)) in
  (Exists (fun c => json_loads c = None) window ->
   result (get_context_history e u limit st) = result (get_context_history e_down u limit st) /\
   result (load_recent_conversations e u limit st)
   = result (load_recent_conversations e_down u limit st)) /\
  (forall ds : list record,
   cache_works e st = true -> map json_loads window = map Some ds ->
   result (get_context_history e u limit st) = flat_map record_entries (rev ds) /\
   result (load_recent_conversations e u limit st)
   = map (fun d => (rec_user d, rec_ai d,
                    match rec_ts d with Some ts => ts | None => clock st end)) ds).
Proof.
  intros Hl. cbv zeta.
  set (e' := mk_env (REDIS_URL e) (MONGODB_URI e) false (mongo_up e) (tie_rank e)).
  assert (Hdown : cache_works e' st = false).
  { unfold cache_works; cbn. apply andb_false_r. }
  assert (Hstore : store_works e' st = store_works e st) by reflexivity.
  split.
  - intros Hbad. split.
    + rewrite (get_context_after_cache_failure e u limit st Hl).
      2: { right. apply cached_history_None, Exists_rev_intro, Hbad. }
      rewrite (get_context_after_cache_failure e' u limit st Hl (or_introl Hdown)).
      rewrite Hstore. reflexivity.
    + rewrite (load_recent_after_cache_failure e u limit st Hl).
      2: { right. apply cached_sidebar_None, Hbad. }
      rewrite (load_recent_after_cache_failure e' u limit st Hl (or_introl Hdown)).
      rewrite Hstore. reflexivity.
  - intros ds Hw Hdec. split.
    + refine (proj1 (get_context_cache_hit e u limit st _ Hl Hw _)).
      apply cached_history_decoded. rewrite map_rev, Hdec, map_rev. reflexivity.
    + apply (load_recent_cache_hit e u limit st _ Hl Hw).
      apply cached_sidebar_decoded, Hdec.
Qed.

Lemma malformed_record_drops_cache_tier_witness :
  0 < 5 /\
  (let e_down := mk_env true true false true 0 in
   let window := firstn (Z.to_nat 5) (get_list (redis_lists st_untimed_cache) (redis_key "dave")) in
   (Exists (fun c => json_loads c = None) window ->
    result (get_context_history env_both_up "dave" 5 st_untimed_cache)
    = result (get_context_history e_down "dave" 5 st_untimed_cache) /\
    result (load_recent_conversations env_both_up "dave" 5 st_untimed_cache)
    = result (load_recent_conversations e_down "dave" 5 st_untimed_cache)) /\
   (forall ds : list record,
    cache_works env_both_up st_untimed_cache = true -> map json_loads window = map Some ds ->
    result (get_context_history env_both_up "dave" 5 st_untimed_cache)
    = flat_map record_entries (rev ds) /\
    result (load_recent_conversations env_both_up "dave" 5 st_untimed_cache)
    = map (fun d => (rec_user d, rec_ai d,
                     match rec_ts d with Some ts => ts | None => clock st_untimed_cache end)) ds)).
Proof.
  split; [lia|].
  exact (malformed_record_drops_cache_tier env_both_up "dave" 5 st_untimed_cache ltac:(lia)).
Defined.

(** ** C6, C7: delete_last *)

(** C6 (counterexample): "frank" has a turn in the fallback store (saved
    during an outage) and one in the cache; [delete_last] pops the cache
    and leaves the fallback store's entry in place. *)
Lemma c6_fallback_not_popped_counterexample :
  let st1 := final (save_conversation env_both_down "frank" "q1" "a1" empty_state) in
  let st2 := final (save_conversation env_cache_only "frank" "q2" "a2" st1) in
  let r := delete_last_conversation env_cache_only "frank" st2 in
  result r = true /\
  get_list (redis_lists (final r)) (redis_key "frank") = [] /\
  local_conversations (final r) !! "frank" = Some [mk_turn "q1" "a1" 0].
Proof. vm_compute. repeat split. Qed.

(** C6 (amended): the cache pop and the durable find-latest+delete are
    attempted independently; the fallback store's last entry is removed
    only when neither external tier deleted anything; the result is true
    iff some tier deleted an entry. *)
Theorem delete_last_tiers (e : env) (u : string) (st : state) :
  let r := delete_last_conversation e u st in
  let cache_del := cache_works e st && nonempty (get_list (redis_lists st) (redis_key u)) in
  let store_del := store_works e st && nonempty (get_list (mongo_docs st) u) in
  let local_del := negb (cache_del || store_del)
                   && nonempty (get_list (local_conversations st) u) in
  result r = cache_del || store_del || local_del /\
  get_list (redis_lists (final r)) (redis_key u)
  = (if cache_del then tail (get_list (redis_lists st) (redis_key u))
     else get_list (redis_lists st) (redis_key u)) /\
  get_list (mongo_docs (final r)) u
  = (if store_del then tail (get_list (mongo_docs st) u)
     else get_list (mongo_docs st) u) /\
  get_list (local_conversations (final r)) u
  = (if local_del then removelast (get_list (local_conversations st) u)
     else get_list (local_conversations st) u).
Proof.
  cbv zeta. unfold cache_works, store_works.
  destruct e as [[] [] [] [] ?]; destruct st as [[] [] ? ? ? ?];
  unfold_ops; unfold head, nonempty in *; reduce_ops;
  repeat (split_innermost; reduce_ops; try discriminate);
  rewrite ?get_list_insert_eq; repeat split; congruence.
Qed.

(** C7: for a user with no history in any tier, [delete_last] returns
    false and leaves the three tiers unchanged (it is a total function: it
    does not raise). *)
Theorem delete_last_on_empty_history (e : env) (u : string) (st : state) :
  get_list (redis_lists st) (redis_key u) = [] ->
  get_list (mongo_docs st) u = [] ->
  get_list (local_conversations st) u = [] ->
  result (delete_last_conversation e u st) = false /\
  redis_lists (final (delete_last_conversation e u st)) = redis_lists st /\
  mongo_docs (final (delete_last_conversation e u st)) = mongo_docs st /\
  local_conversations (final (delete_last_conversation e u st)) = local_conversations st.
Proof.
  intros Hr Hm Hl.
  destruct e as [[] [] [] [] ?]; destruct st as [[] [] ? ? ? ?]; cbn in Hr, Hm, Hl;
  unfold_ops; unfold head, nonempty in *; reduce_ops;
  repeat (split_innermost; reduce_ops; try discriminate); repeat split; congruence.
Qed.

Lemma delete_last_on_empty_history_witness :
  get_list (redis_lists st_cache_empty) (redis_key "gina") = [] /\
  get_list (mongo_docs st_cache_empty) "gina" = [] /\
  get_list (local_conversations st_cache_empty) "gina" = [] /\
  (result (delete_last_conversation env_both_up "gina" st_cache_empty) = false /\
   redis_lists (final (delete_last_conversation env_both_up "gina" st_cache_empty))
   = redis_lists st_cache_empty /\
   mongo_docs (final (delete_last_conversation env_both_up "gina" st_cache_empty))
   = mongo_docs st_cache_empty /\
   local_conversations (final (delete_last_conversation env_both_up "gina" st_cache_empty))
   = local_conversations st_cache_empty).
Proof.
  split; [vm_compute; reflexivity|]. split; [vm_compute; reflexivity|].
  split; [vm_compute; reflexivity|].
  apply (delete_last_on_empty_history env_both_up "gina" st_cache_empty);
    vm_compute; reflexivity.
Defined.

(** ** C8: no index creation *)

(** C8 (counterexample): the first save on a fresh process, with both
    tiers reachable, connects both clients and inserts; no index creation
    is issued. *)
Lemma c8_no_create_index_counterexample :
  trace (save_conversation env_both_up "alice" "hi" "hello!" empty_state)
  = [RedisPing; LPush (redis_key "alice"); MongoPing; InsertOne "alice"] /\
  ~ In (CreateIndex [("user_id", 1); ("timestamp", -1)])
      (trace (save_conversation env_both_up "alice" "hi" "hello!" empty_state)).
Proof.
  assert (Ht : trace (save_conversation env_both_up "alice" "hi" "hello!" empty_state)
               = [RedisPing; LPush (redis_key "alice"); MongoPing; InsertOne "alice"])
    by (vm_compute; reflexivity).
  split; [exact Ht|]. rewrite Ht. cbn. intuition discriminate.
Qed.

(** C8 (amended): no operation of the module, connection included, ever
    issues an index creation; the (user_id, timestamp desc) index is left
    to the deployment. *)
Theorem no_index_creation (e : env) (u m a : string) (limit : Z) (st : state) :
  Forall (fun c => is_create_index c = false) (trace (get_mongo_collection e st)) /\
  Forall (fun c => is_create_index c = false) (trace (save_conversation e u m a st)) /\
  Forall (fun c => is_create_index c = false) (trace (get_context_history e u limit st)) /\
  Forall (fun c => is_create_index c = false) (trace (load_recent_conversations e u limit st)) /\
  Forall (fun c => is_create_index c = false) (trace (delete_last_conversation e u st)) /\
  Forall (fun c => is_create_index c = false) (trace (clear_all_history e u st)).
Proof.
  repeat split; split_tiers e st; repeat constructor.
Qed.

(** ** C9: save never fails *)

(** C9: [save_conversation] returns true in every configuration: when both
    external writes fail, the fallback append runs and cannot fail. *)
Theorem save_conversation_always_true (e : env) (u m a : string) (st : state) :
  result (save_conversation e u m a st) = true.
Proof. exact (proj1 (save_step e u m a st)). Qed.

(** ** C10: per-user isolation *)

(** C10: for distinct users u and v, [save_conversation],
    [delete_last_conversation] and [clear_all_history] on u leave v's
    entries unchanged in every tier, and never read them: replacing v's
    entries by anything changes neither the result nor what is stored for
    u afterwards. *)
Theorem per_user_isolation (e : env) (u v m a : string) (st : state)
    (x : option (list cached_item) * option (list turn) * option (list turn)) :
  u <> v ->
  (user_view (final (save_conversation e u m a st)) v = user_view st v /\
   user_view (final (delete_last_conversation e u st)) v = user_view st v /\
   user_view (final (clear_all_history e u st)) v = user_view st v) /\
  (result (save_conversation e u m a (set_user_view v x st))
   = result (save_conversation e u m a st) /\
   user_view (final (save_conversation e u m a (set_user_view v x st))) u
   = user_view (final (save_conversation e u m a st)) u /\
   result (delete_last_conversation e u (set_user_view v x st))
   = result (delete_last_conversation e u st) /\
   user_view (final (delete_last_conversation e u (set_user_view v x st))) u
   = user_view (final (delete_last_conversation e u st)) u /\
   user_view (final (clear_all_history e u (set_user_view v x st))) u
   = user_view (final (clear_all_history e u st)) u).
Proof.
  intros Hne.
  destruct (save_conversation_indep e u v m a x st Hne) as [Hs1 Hs2].
  destruct (delete_last_conversation_indep e u v x st Hne) as [Hd1 Hd2].
  destruct (clear_all_history_indep e u v x st Hne) as [_ Hc2].
  split.
  - split; [apply save_conversation_frame, Hne|].
    split; [apply delete_last_conversation_frame, Hne | apply clear_all_history_frame, Hne].
  - repeat split; assumption.
Qed.

Lemma per_user_isolation_witness :
  "alice" <> "bob" /\
  (user_view (final (save_conversation env_both_up "alice" "hi" "hello" st_cache_empty)) "bob"
   = user_view st_cache_empty "bob" /\
   user_view (final (delete_last_conversation env_both_up "alice" st_cache_empty)) "bob"
   = user_view st_cache_empty "bob" /\
   user_view (final (clear_all_history env_both_up "alice" st_cache_empty)) "bob"
   = user_view st_cache_empty "bob") /\
  (result (save_conversation env_both_up "alice" "hi" "hello"
             (set_user_view "bob" (None, None, None) st_cache_empty))
   = result (save_conversation env_both_up "alice" "hi" "hello" st_cache_empty) /\
   user_view (final (save_conversation env_both_up "alice" "hi" "hello"
                       (set_user_view "bob" (None, None, None) st_cache_empty))) "alice"
   = user_view (final (save_conversation env_both_up "alice" "hi" "hello" st_cache_empty)) "alice" /\
   result (delete_last_conversation env_both_up "alice"
             (set_user_view "bob" (None, None, None) st_cache_empty))
   = result (delete_last_conversation env_both_up "alice" st_cache_empty) /\
   user_view (final (delete_last_conversation env_both_up "alice"
                       (set_user_view "bob" (None, None, None) st_cache_empty))) "alice"
   = user_view (final (delete_last_conversation env_both_up "alice" st_cache_empty)) "alice" /\
   user_view (final (clear_all_history env_both_up "alice"
                       (set_user_view "bob" (None, None, None) st_cache_empty))) "alice"
   = user_view (final (clear_all_history env_both_up "alice" st_cache_empty)) "alice").
Proof.
  assert (Hne : "alice" <> "bob") by (vm_compute; discriminate).
  split; [exact Hne|].
  exact (per_user_isolation env_both_up "alice" "bob" "hi" "hello" st_cache_empty
           (None, None, None) Hne).
Defined.

(** ** Further properties: the operations' commands and client handles *)

Ltac sublist_close :=
  repeat first [apply sublist_skip | apply sublist_cons | apply sublist_nil].

(** X3: each operation issues a sub-sequence of its fixed command
    protocol, in that order: a Redis ping, the Redis command on
    ["conversation:" ++ user_id], a MongoDB ping, and the MongoDB
    command(s) filtered by [user_id]. *)
Theorem command_protocol (e : env) (u m a : string) (limit : Z) (st : state) :
  trace (save_conversation e u m a st)
    `sublist_of` [RedisPing; LPush (redis_key u); MongoPing; InsertOne u] /\
  trace (get_context_history e u limit st)
    `sublist_of` [RedisPing; LRange (redis_key u) 0 (Z.max 0 (limit - 1)); MongoPing; Find u limit] /\
  trace (load_recent_conversations e u limit st)
    `sublist_of` [RedisPing; LRange (redis_key u) 0 (Z.max 0 (limit - 1)); MongoPing; Find u limit] /\
  trace (delete_last_conversation e u st)
    `sublist_of` [RedisPing; LPop (redis_key u); MongoPing; FindOne u; DeleteOne u] /\
  trace (clear_all_history e u st)
    `sublist_of` [RedisPing; RedisDelete (redis_key u); MongoPing; DeleteMany u].
Proof.
  repeat split; split_tiers e st; sublist_close.
Qed.

(** X4: in every operation, a client is pinged only when no handle is
    cached and its URL is set, and a cached handle is kept. *)
Theorem handles_cached (e : env) (u m a : string) (limit : Z) (st : state) :
  handle_discipline e st (save_conversation e u m a st) /\
  handle_discipline e st (get_context_history e u limit st) /\
  handle_discipline e st (load_recent_conversations e u limit st) /\
  handle_discipline e st (delete_last_conversation e u st) /\
  handle_discipline e st (clear_all_history e u st).
Proof.
  unfold handle_discipline.
  repeat match goal with |- _ /\ _ => split end;
    split_tiers e st; cbn [In] in *; intuition (try discriminate).
Qed.

(** X5: with neither REDIS_URL nor MONGODB_URI set and no cached handle,
    no operation issues any command to Redis or MongoDB. *)
Theorem no_url_no_command (e : env) (u m a : string) (limit : Z) (st : state) :
  REDIS_URL e = false -> MONGODB_URI e = false ->
  redis_client st = false -> mongo_collection st = false ->
  trace (save_conversation e u m a st) = [] /\
  trace (get_context_history e u limit st) = [] /\
  trace (load_recent_conversations e u limit st) = [] /\
  trace (delete_last_conversation e u st) = [] /\
  trace (clear_all_history e u st) = [].
Proof.
  intros H1 H2 H3 H4.
  repeat split; split_tiers e st; try discriminate; reflexivity.
Qed.

Lemma no_url_no_command_witness :
  (REDIS_URL (mk_env false false true true 0) = false /\
   MONGODB_URI (mk_env false false true true 0) = false /\
   redis_client empty_state = false /\ mongo_collection empty_state = false) /\
  (trace (save_conversation (mk_env false false true true 0) "alice" "hi" "hello" empty_state) = [] /\
   trace (get_context_history (mk_env false false true true 0) "alice" 5 empty_state) = [] /\
   trace (load_recent_conversations (mk_env false false true true 0) "alice" 5 empty_state) = [] /\
   trace (delete_last_conversation (mk_env false false true true 0) "alice" empty_state) = [] /\
   trace (clear_all_history (mk_env false false true true 0) "alice" empty_state) = []).
Proof.
  split; [repeat split|].
  exact (no_url_no_command (mk_env false false true true 0) "alice" "hi" "hello" 5 empty_state
           eq_refl eq_refl eq_refl eq_refl).
Defined.

(** ** Further properties: reads, clear and delete *)

Lemma reads_nonpositive_limit (e : env) u limit st :
  limit <= 0 ->
  result (get_context_history e u limit st) = [] /\
  result (load_recent_conversations e u limit st) = [].
Proof.
  intros Hl. unfold get_context_history, load_recent_conversations.
  replace (limit <=? 0) with true by (symmetry; apply Z.leb_le; exact Hl).
  split; reflexivity.
Qed.

Lemma read_frame (e : env) (u : string) (limit : Z) (st : state) :
  let r1 := get_context_history e u limit st in
  let r2 := load_recent_conversations e u limit st in
  redis_lists (final r1) = redis_lists st /\ mongo_docs (final r1) = mongo_docs st /\
  local_conversations (final r1) = local_conversations st /\ clock (final r1) = clock st /\
  cache_works e (final r1) = cache_works e st /\ store_works e (final r1) = store_works e st /\
  redis_lists (final r2) = redis_lists st /\ mongo_docs (final r2) = mongo_docs st /\
  local_conversations (final r2) = local_conversations st /\ clock (final r2) = clock st /\
  cache_works e (final r2) = cache_works e st /\ store_works e (final r2) = store_works e st.
Proof.
  cbv zeta. unfold cache_works, store_works.
  split_tiers e st; repeat split.
Qed.

(** X2: the two reads leave every tier's contents and the clock as they
    were, and do not change which tiers answer. *)
Theorem reads_preserve_contents (e : env) (u : string) (limit : Z) (st : state) :
  let r1 := get_context_history e u limit st in
  let r2 := load_recent_conversations e u limit st in
  redis_lists (final r1) = redis_lists st /\ mongo_docs (final r1) = mongo_docs st /\
  local_conversations (final r1) = local_conversations st /\ clock (final r1) = clock st /\
  cache_works e (final r1) = cache_works e st /\ store_works e (final r1) = store_works e st /\
  redis_lists (final r2) = redis_lists st /\ mongo_docs (final r2) = mongo_docs st /\
  local_conversations (final r2) = local_conversations st /\ clock (final r2) = clock st /\
  cache_works e (final r2) = cache_works e st /\ store_works e (final r2) = store_works e st.
Proof. exact (read_frame e u limit st). Qed.

Lemma clear_step (e : env) (u : string) (st : state) :
  let st1 := final (clear_all_history e u st) in
  cache_works e st1 = cache_works e st /\ store_works e st1 = store_works e st /\
  redis_lists st1 !! redis_key u = (if cache_works e st then None else redis_lists st !! redis_key u) /\
  mongo_docs st1 !! u = (if store_works e st then None else mongo_docs st !! u) /\
  local_conversations st1 !! u = None.
Proof.
  cbv zeta. unfold cache_works, store_works.
  split_tiers e st; rewrite ?lookup_delete_eq; repeat split.
Qed.

Lemma get_list_None {A} (m : gmap string (list A)) k : m !! k = None -> get_list m k = [].
Proof. unfold get_list. intros ->. reflexivity. Qed.

(** X1: [clear_all_history] always drops the user's local entries, drops
    the cache list and the store documents when those tiers answer, and
    afterwards both reads return nothing for the user. *)
Theorem clear_all_history_empties (e : env) (u : string) (limit : Z) (st : state) :
  let st1 := final (clear_all_history e u st) in
  local_conversations st1 !! u = None /\
  redis_lists st1 !! redis_key u = (if cache_works e st then None else redis_lists st !! redis_key u) /\
  mongo_docs st1 !! u = (if store_works e st then None else mongo_docs st !! u) /\
  result (get_context_history e u limit st1) = [] /\
  result (load_recent_conversations e u limit st1) = [].
Proof.
  cbv zeta. destruct (clear_step e u st) as (Hc & Hs & Hr & Hm & Hl).
  set (st1 := final (clear_all_history e u st)) in *.
  split; [exact Hl|]. split; [exact Hr|]. split; [exact Hm|].
  destruct (Z_le_gt_dec limit 0) as [Hk | Hk]; [apply reads_nonpositive_limit; exact Hk|].
  assert (Hloc : local_get_recent st1 u limit = []).
  { unfold local_get_recent. rewrite (get_list_None _ _ Hl). cbn.
    destruct (limit <=? 0); reflexivity. }
  destruct (cache_works e st) eqn:Ec.
  - pose proof (get_list_None _ _ Hr) as Hr'. split.
    + refine (proj1 (get_context_cache_hit e u limit st1 [] _ _ _)); [lia | congruence |].
      rewrite Hr', firstn_nil. reflexivity.
    + apply load_recent_cache_hit; [lia | congruence |]. rewrite Hr', firstn_nil. reflexivity.
  - rewrite get_context_after_cache_failure by (lia || (left; congruence)).
    rewrite load_recent_after_cache_failure by (lia || (left; congruence)).
    cbv zeta. rewrite Hs, Hloc.
    destruct (store_works e st) eqn:Es.
    + pose proof (get_list_None _ _ Hm) as Hm'. rewrite Hm', firstn_nil. split; reflexivity.
    + split; reflexivity.
Qed.

Lemma bind_result {A B} (m : M A) (k : A -> M B) (st : state) :
  result (bind m k st) = result (k (result (m st)) (final (m st))).
Proof.
  unfold bind, final, result. destruct (m st) as [[a st1] t1].
  cbn. destruct (k a st1) as [[b st2] t2]. reflexivity.
Qed.

Lemma delete_step (e : env) (u : string) (st : state) :
  let r := delete_last_conversation e u st in
  let cache_del := cache_works e st && nonempty (get_list (redis_lists st) (redis_key u)) in
  let store_del := store_works e st && nonempty (get_list (mongo_docs st) u) in
  let local_del := negb (cache_del || store_del)
                   && nonempty (get_list (local_conversations st) u) in
  result r = cache_del || store_del || local_del /\
  get_list (redis_lists (final r)) (redis_key u)
  = (if cache_del then tail (get_list (redis_lists st) (redis_key u))
     else get_list (redis_lists st) (redis_key u)) /\
  get_list (mongo_docs (final r)) u
  = (if store_del then tail (get_list (mongo_docs st) u)
     else get_list (mongo_docs st) u) /\
  get_list (local_conversations (final r)) u
  = (if local_del then removelast (get_list (local_conversations st) u)
     else get_list (local_conversations st) u).
Proof.
  cbv zeta. unfold cache_works, store_works.
  destruct e as [[] [] [] [] ?]; destruct st as [[] [] ? ? ? ?];
  unfold_ops; unfold head, nonempty in *; reduce_ops;
  repeat (split_innermost; reduce_ops; try discriminate);
  rewrite ?get_list_insert_eq; repeat split; congruence.
Qed.

Lemma nonempty_snoc {A} (l : list A) (x : A) : nonempty (l ++ [x]) = true.
Proof. destruct l; reflexivity. Qed.

Lemma save_delete_frame (e : env) (u m a : string) (st : state) :
  Forall (fun x => timestamp x < clock st) (get_list (mongo_docs st) u) ->
  let st1 := final (save_conversation e u m a st) in
  let d := delete_last_conversation e u st1 in
  result d = true /\
  get_list (redis_lists (final d)) (redis_key u) = get_list (redis_lists st) (redis_key u) /\
  get_list (mongo_docs (final d)) u = get_list (mongo_docs st) u /\
  get_list (local_conversations (final d)) u = get_list (local_conversations st) u.
Proof.
  intros Hold. cbv zeta.
  destruct (save_step e u m a st) as (_ & Hc & Hs & Hr & Hm & Hl & _).
  rewrite insert_by_ts_newest in Hm by exact Hold.
  set (st1 := final (save_conversation e u m a st)) in *.
  destruct (delete_step e u st1) as (Hres & Hr2 & Hm2 & Hl2).
  rewrite Hres, Hr2, Hm2, Hl2, Hc, Hs, Hr, Hm, Hl.
  destruct (cache_works e st), (store_works e st); cbn;
    rewrite ?nonempty_snoc, ?removelast_last, ?orb_true_r, ?app_nil_r; repeat split.
Qed.

(** X6: when the user's stored documents are all older than the current
    millisecond, [delete_last_conversation] right after
    [save_conversation] reports success and gives each of the user's
    three tiers back the list it held before the save, whichever tiers
    answer. *)
Theorem save_then_delete_restores (e : env) (u m a : string) (st : state) :
  Forall (fun x => timestamp x < clock st) (get_list (mongo_docs st) u) ->
  let st1 := final (save_conversation e u m a st) in
  let d := delete_last_conversation e u st1 in
  result d = true /\
  get_list (redis_lists (final d)) (redis_key u) = get_list (redis_lists st) (redis_key u) /\
  get_list (mongo_docs (final d)) u = get_list (mongo_docs st) u /\
  get_list (local_conversations (final d)) u = get_list (local_conversations st) u.
Proof. exact (save_delete_frame e u m a st). Qed.

Lemma save_then_delete_restores_witness :
  Forall (fun x => timestamp x < clock (elapse 1 st_cache_empty))
    (get_list (mongo_docs (elapse 1 st_cache_empty)) "dave") /\
  (let st1 := final (save_conversation env_both_up "dave" "q" "a" (elapse 1 st_cache_empty)) in
   let d := delete_last_conversation env_both_up "dave" st1 in
   result d = true /\
   get_list (redis_lists (final d)) (redis_key "dave")
   = get_list (redis_lists (elapse 1 st_cache_empty)) (redis_key "dave") /\
   get_list (mongo_docs (final d)) "dave" = get_list (mongo_docs (elapse 1 st_cache_empty)) "dave" /\
   get_list (local_conversations (final d)) "dave"
   = get_list (local_conversations (elapse 1 st_cache_empty)) "dave").
Proof.
  assert (Hold : Forall (fun x => timestamp x < clock (elapse 1 st_cache_empty))
                   (get_list (mongo_docs (elapse 1 st_cache_empty)) "dave")).
  { vm_compute. repeat constructor. }
  split; [exact Hold|].
  exact (save_then_delete_restores env_both_up "dave" "q" "a" (elapse 1 st_cache_empty) Hold).
Defined.


(** ** Further properties: the read windows and the session restore *)


(** Every cached list either decodes entirely or holds a malformed record. *)
Lemma cached_decode_cases (l : list cached_item) :
  (exists ds, l = map Serialized ds) \/ Exists (fun c => json_loads c = None) l.
Proof.
  induction l as [|c l IH].
  - left. exists []. reflexivity.
  - destruct c as [d | raw].
    + destruct IH as [[ds ->] | Hex]; [left; exists (d :: ds); reflexivity | right; right; exact Hex].
    + right. left. reflexivity.
Qed.

Lemma wellformed_map (l : list cached_item) :
  Forall (fun c => json_loads c <> None) l -> exists ds, l = map Serialized ds.
Proof.
  intros Hf. destruct (cached_decode_cases l) as [H | Hex]; [exact H|].
  apply Exists_exists in Hex. destruct Hex as (x & Hx & Hn).
  rewrite Forall_forall in Hf. exfalso. exact (Hf x Hx Hn).
Qed.

Lemma cached_history_Some (l : list cached_item) h :
  cached_history l = Some h -> exists ds, l = map Serialized ds /\ h = flat_map record_entries ds.
Proof.
  revert h. induction l as [|c l IH]; intros h Hh; cbn in Hh.
  - injection Hh as <-. exists []. split; reflexivity.
  - destruct c as [d | raw]; cbn in Hh; [|discriminate].
    destruct (cached_history l) as [h'|] eqn:E; [|discriminate].
    injection Hh as <-. destruct (IH h' eq_refl) as (ds & -> & ->).
    exists (d :: ds). split; reflexivity.
Qed.

Lemma cached_sidebar_Some (n : Z) (l : list cached_item) r :
  cached_sidebar n l = Some r -> exists ds, l = map Serialized ds /\ r = map (cached_row n) ds.
Proof.
  revert r. induction l as [|c l IH]; intros r Hr; cbn in Hr.
  - injection Hr as <-. exists []. split; reflexivity.
  - destruct c as [d | raw]; cbn in Hr; [|discriminate].
    destruct (cached_sidebar n l) as [r'|] eqn:E; [|discriminate].
    injection Hr as <-. destruct (IH r' eq_refl) as (ds & -> & ->).
    exists (d :: ds). split; reflexivity.
Qed.

Lemma record_entries_pairs (l : list record) :
  flat_map record_entries l = flat_map pair_entries (map record_pair l).
Proof. induction l as [|d l IH]; cbn; [reflexivity | rewrite IH; reflexivity]. Qed.

Lemma row_entries_cached (n : Z) (l : list record) :
  flat_map row_entries (map (cached_row n) l) = flat_map record_entries l.
Proof. induction l as [|d l IH]; cbn; [reflexivity | rewrite IH; reflexivity]. Qed.

Lemma length_local_get_recent st u limit :
  (length (local_get_recent st u limit) <= Z.to_nat limit)%nat.
Proof.
  unfold local_get_recent. destruct (limit <=? 0); cbn; [lia|].
  rewrite length_skipn. lia.
Qed.

Lemma length_rev_firstn {A} (k : nat) (l : list A) : (length (rev (firstn k l)) <= k)%nat.
Proof. rewrite length_rev, length_firstn. lia. Qed.

(** X7: [get_context_history] returns whole user/assistant pairs, at most
    [limit] of them, and [load_recent_conversations] at most [limit] rows,
    whichever tier answers. *)
Theorem reads_return_whole_turns (e : env) (u : string) (limit : Z) (st : state) :
  (exists ps, result (get_context_history e u limit st) = flat_map pair_entries ps /\
              (length ps <= Z.to_nat limit)%nat) /\
  (length (result (load_recent_conversations e u limit st)) <= Z.to_nat limit)%nat.
Proof.
  destruct (Z_le_gt_dec limit 0) as [Hk | Hk].
  { destruct (reads_nonpositive_limit e u limit st Hk) as [-> ->].
    split; [exists []; split; [reflexivity | cbn; lia] | cbn; lia]. }
  set (win := firstn (Z.to_nat limit) (get_list (redis_lists st) (redis_key u))).
  split.
  - destruct (cache_works e st) eqn:Ec;
      [destruct (cached_history (rev win)) as [h|] eqn:Eh|].
    + destruct (get_context_cache_hit e u limit st h ltac:(lia) Ec Eh) as [-> _].
      destruct (cached_history_Some _ _ Eh) as (ts & Hts & ->).
      exists (map record_pair ts). rewrite record_entries_pairs. split; [reflexivity|].
      rewrite length_map. rewrite <- (length_map Serialized ts), <- Hts.
      apply length_rev_firstn.
    + rewrite get_context_after_cache_failure by (lia || (right; exact Eh)). cbv zeta.
      destruct (store_works e st);
        [destruct (flat_map expand (rev (firstn (Z.to_nat limit) (get_list (mongo_docs st) u)))) eqn:Em|].
      * exists (map turn_pair (local_get_recent st u limit)).
        rewrite flat_map_expand_pairs, length_map. split; [reflexivity | apply length_local_get_recent].
      * rewrite <- Em. exists (map turn_pair (rev (firstn (Z.to_nat limit) (get_list (mongo_docs st) u)))).
        rewrite flat_map_expand_pairs, length_map. split; [reflexivity | apply length_rev_firstn].
      * exists (map turn_pair (local_get_recent st u limit)).
        rewrite flat_map_expand_pairs, length_map. split; [reflexivity | apply length_local_get_recent].
    + rewrite get_context_after_cache_failure by (lia || (left; exact Ec)). cbv zeta.
      destruct (store_works e st);
        [destruct (flat_map expand (rev (firstn (Z.to_nat limit) (get_list (mongo_docs st) u)))) eqn:Em|].
      * exists (map turn_pair (local_get_recent st u limit)).
        rewrite flat_map_expand_pairs, length_map. split; [reflexivity | apply length_local_get_recent].
      * rewrite <- Em. exists (map turn_pair (rev (firstn (Z.to_nat limit) (get_list (mongo_docs st) u)))).
        rewrite flat_map_expand_pairs, length_map. split; [reflexivity | apply length_rev_firstn].
      * exists (map turn_pair (local_get_recent st u limit)).
        rewrite flat_map_expand_pairs, length_map. split; [reflexivity | apply length_local_get_recent].
  - destruct (cache_works e st) eqn:Ec;
      [destruct (cached_sidebar (clock st) win) as [r|] eqn:Er|].
    + rewrite (load_recent_cache_hit e u limit st r ltac:(lia) Ec Er).
      destruct (cached_sidebar_Some _ _ _ Er) as (ts & Hts & ->).
      rewrite length_map, <- (length_map Serialized ts), <- Hts.
      unfold win. rewrite length_firstn. lia.
    + rewrite load_recent_after_cache_failure by (lia || (right; exact Er)).
      destruct (store_works e st); rewrite length_map;
        [rewrite length_firstn; lia | rewrite length_rev; apply length_local_get_recent].
    + rewrite load_recent_after_cache_failure by (lia || (left; exact Ec)).
      destruct (store_works e st); rewrite length_map;
        [rewrite length_firstn; lia | rewrite length_rev; apply length_local_get_recent].
Qed.

Lemma match_snoc2 {A} (pre : list A) (x y : A) (d : list A) :
  match pre ++ [x; y] with [] => d | _ :: _ => pre ++ [x; y] end = pre ++ [x; y].
Proof. destruct pre; reflexivity. Qed.

(** X8: for [limit > 0], a cache list with no malformed record and stored
    documents all older than the current millisecond, right after
    [save_conversation] the context window ends with the saved
    user/assistant pair and the sidebar's first row is the saved turn,
    whichever tiers answer. *)
Theorem save_then_read_round_trip (e : env) (u m a : string) (limit : Z) (st : state) :
  0 < limit ->
  Forall (fun c => json_loads c <> None) (get_list (redis_lists st) (redis_key u)) ->
  Forall (fun x => timestamp x < clock st) (get_list (mongo_docs st) u) ->
  let st1 := final (save_conversation e u m a st) in
  (exists pre, result (get_context_history e u limit st1)
               = pre ++ [mk_entry RUser m; mk_entry RAssistant a]) /\
  head (result (load_recent_conversations e u limit st1)) = Some (m, a, clock st).
Proof.
  intros Hk Hwf Hold. cbv zeta.
  destruct (save_step e u m a st) as (_ & Hc & Hs & Hr & Hm & Hl & Hclk).
  rewrite insert_by_ts_newest in Hm by exact Hold.
  set (t := mk_turn m a (clock st)) in *.
  set (st1 := final (save_conversation e u m a st)) in *.
  destruct (wellformed_map _ Hwf) as (ws & Hws).
  destruct (Z.to_nat limit) as [|k'] eqn:Ek; [lia|].
  destruct (cache_works e st) eqn:Ec.
  - rewrite Hws in Hr.
    set (dt := mk_record m a (Some (clock st))).
    change ([json_dumps t] ++ map Serialized ws) with (map Serialized (dt :: ws)) in Hr.
    split.
    + exists (flat_map record_entries (rev (firstn k' ws))).
      refine (proj1 (get_context_cache_hit e u limit st1 _ Hk Hc _)).
      rewrite Hr, Ek, firstn_map, <- map_rev.
      rewrite (cached_history_decoded _ _ (json_loads_serialized _)).
      cbn [firstn rev]. rewrite flat_map_app. reflexivity.
    + rewrite (load_recent_cache_hit e u limit st1
                 (map (cached_row (clock st1)) (firstn (S k') (dt :: ws))) Hk Hc).
      * reflexivity.
      * rewrite Hr, Ek, firstn_map. apply cached_sidebar_decoded, json_loads_serialized.
  - rewrite get_context_after_cache_failure by (lia || (left; exact Hc)).
    rewrite load_recent_after_cache_failure by (lia || (left; exact Hc)).
    cbv zeta. rewrite Hs, Ek.
    destruct (store_works e st) eqn:Es.
    + rewrite Hm, ?Es. cbn [app firstn rev]. rewrite flat_map_app.
      change (flat_map expand [t]) with [mk_entry RUser m; mk_entry RAssistant a].
      rewrite match_snoc2. split; [eexists; reflexivity | reflexivity].
    + unfold local_get_recent. rewrite Hl. cbn [orb app].
      destruct (limit <=? 0) eqn:Ez; [apply Z.leb_le in Ez; lia|].
      rewrite Ek, length_app. cbn [length].
      rewrite skipn_snoc by lia. rewrite flat_map_app, rev_app_distr.
      split; [eexists; reflexivity | reflexivity].
Qed.

Lemma row_entries_sidebar (l : list turn) :
  flat_map row_entries (map sidebar_of l) = flat_map expand l.
Proof. induction l as [|t l IH]; cbn; [reflexivity | rewrite IH; reflexivity]. Qed.

Lemma firstn_nonempty {A} (k : nat) (l : list A) :
  (0 < k)%nat -> l <> [] -> firstn k l <> [].
Proof. destruct k, l; cbn; congruence || lia. Qed.

(** X9: the context window equals the sidebar rows, oldest first, split
    into their two messages, unless the store answers with no document
    for the user and the cache does not serve a fully decodable list. *)
Theorem reads_agree_outside_empty_store (e : env) (u : string) (limit : Z) (st : state) :
  (cache_works e st = true /\
   Forall (fun c => json_loads c <> None) (get_list (redis_lists st) (redis_key u))) \/
  store_works e st = false \/ get_list (mongo_docs st) u <> [] ->
  result (get_context_history e u limit st)
  = flat_map row_entries (rev (result (load_recent_conversations e u limit st))).
Proof.
  intros Hyp.
  destruct (Z_le_gt_dec limit 0) as [Hk | Hk].
  { destruct (reads_nonpositive_limit e u limit st Hk) as [-> ->]. reflexivity. }
  set (win := firstn (Z.to_nat limit) (get_list (redis_lists st) (redis_key u))).
  destruct (cached_decode_cases win) as [(ts & Hts) | Hex].
  - destruct (cache_works e st) eqn:Ec.
    + rewrite (load_recent_cache_hit e u limit st (map (cached_row (clock st)) ts) ltac:(lia) Ec)
        by (fold win; rewrite Hts; apply cached_sidebar_decoded, json_loads_serialized).
      refine (eq_trans (proj1 (get_context_cache_hit e u limit st (flat_map record_entries (rev ts))
                                 ltac:(lia) Ec _)) _).
      * fold win. rewrite Hts, <- map_rev. apply cached_history_decoded, json_loads_serialized.
      * rewrite <- map_rev, row_entries_cached. reflexivity.
    + destruct Hyp as [[Hc _] | Hyp]; [discriminate|].
      rewrite get_context_after_cache_failure by (lia || (left; exact Ec)).
      rewrite load_recent_after_cache_failure by (lia || (left; exact Ec)).
      cbv zeta. destruct (store_works e st) eqn:Es.
      * destruct Hyp as [Hyp | Hne]; [discriminate|].
        rewrite <- map_rev, row_entries_sidebar.
        destruct (flat_map expand (rev (firstn (Z.to_nat limit) (get_list (mongo_docs st) u)))) eqn:Em;
          [|reflexivity].
        exfalso. apply (firstn_nonempty (Z.to_nat limit) _ ltac:(lia) Hne).
        destruct (firstn (Z.to_nat limit) (get_list (mongo_docs st) u)) as [|x r] eqn:Ef; [reflexivity|].
        cbn in Em. rewrite flat_map_app in Em. cbn in Em. destruct (flat_map expand (rev r)); discriminate.
      * rewrite <- map_rev, rev_involutive, row_entries_sidebar. reflexivity.
  - assert (Hnc : cache_works e st = false \/ cached_history (rev win) = None).
    { right. apply cached_history_None, Exists_rev_intro, Hex. }
    assert (Hns : cache_works e st = false \/ cached_sidebar (clock st) win = None).
    { right. apply cached_sidebar_None, Hex. }
    rewrite get_context_after_cache_failure by (lia || exact Hnc).
    rewrite load_recent_after_cache_failure by (lia || exact Hns).
    cbv zeta. destruct (store_works e st) eqn:Es.
    + destruct Hyp as [[_ Hf] | [Hyp | Hne]]; [| discriminate |].
      * exfalso. apply (Forall_take _ (Z.to_nat limit)) in Hf. fold win in Hf.
        apply Exists_exists in Hex. destruct Hex as (x & Hx & Hn).
        rewrite Forall_forall in Hf. exact (Hf x Hx Hn).
      * rewrite <- map_rev, row_entries_sidebar.
        destruct (flat_map expand (rev (firstn (Z.to_nat limit) (get_list (mongo_docs st) u)))) eqn:Em;
          [|reflexivity].
        exfalso. apply (firstn_nonempty (Z.to_nat limit) _ ltac:(lia) Hne).
        destruct (firstn (Z.to_nat limit) (get_list (mongo_docs st) u)) as [|x r] eqn:Ef; [reflexivity|].
        cbn in Em. rewrite flat_map_app in Em. cbn in Em. destruct (flat_map expand (rev r)); discriminate.
    + rewrite <- map_rev, rev_involutive, row_entries_sidebar. reflexivity.
Qed.

Lemma restore_session_empty (e : env) u st :
  result (restore_session e u [] st)
  = flat_map row_entries (rev (result (load_recent_conversations e u 20 st))).
Proof. unfold restore_session. cbn [nonempty]. rewrite bind_result. reflexivity. Qed.

(** X10: on a fresh session ([messages] empty) for a user with no stored
    history, the session restore after a run of saves shows exactly the
    last 20 saved pairs, oldest first, whichever tiers answer, provided
    that, when only the durable store answers, the saves fall in distinct
    milliseconds. *)
Theorem restore_after_saves (e : env) (u : string) (turns : list (N * (string * string))) (st : state) :
  get_list (redis_lists st) (redis_key u) = [] ->
  get_list (mongo_docs st) u = [] ->
  get_list (local_conversations st) u = [] ->
  (cache_works e st = true \/ store_works e st = false \/ distinct_ms turns) ->
  result (restore_session e u [] (final (save_all e u turns st)))
  = flat_map pair_entries (skipn (length turns - 20) (map snd turns)).
Proof.
  intros Hr0 Hm0 Hl0 Hcfg. rewrite restore_session_empty.
  destruct (save_all_spec e u turns st) as (Hts & Hc & Hs & Hr & _ & Hl).
  pose proof (save_all_mongo e u turns st) as Hmongo.
  set (ts := saved_turns (clock st) turns) in *.
  set (st' := final (save_all e u turns st)) in *.
  rewrite Hr0, app_nil_r in Hr. rewrite Hm0, app_nil_r in Hmongo. rewrite Hl0 in Hl.
  cbn [app] in Hl.
  assert (Hlen : length ts = length turns).
  { rewrite <- (length_map turn_pair ts), Hts, length_map. reflexivity. }
  assert (Hwin : flat_map expand (skipn (length ts - 20) ts)
                 = flat_map pair_entries (skipn (length turns - 20) (map snd turns))).
  { rewrite flat_map_expand_pairs, <- skipn_map, Hts, Hlen. reflexivity. }
  rewrite <- Hwin.
  destruct (cache_works e st) eqn:Ec.
  - rewrite (load_recent_cache_hit e u 20 st' (map sidebar_of (firstn 20 (rev ts))) ltac:(lia) Hc).
    + rewrite <- map_rev, row_entries_sidebar, firstn_rev, rev_involutive. reflexivity.
    + rewrite Hr. change (Z.to_nat 20) with 20%nat. cbn iota beta.
      rewrite <- map_rev, firstn_map. apply cached_sidebar_map.
  - rewrite load_recent_after_cache_failure by (lia || (left; exact Hc)).
    rewrite Hs. destruct (store_works e st) eqn:Es.
    + rewrite Hmongo; [|reflexivity| |constructor].
      2: { destruct Hcfg as [H | [H | H]]; [discriminate | discriminate | exact H]. }
      rewrite <- map_rev, row_entries_sidebar, firstn_rev, rev_involutive. reflexivity.
    + rewrite <- map_rev, rev_involutive, row_entries_sidebar.
      unfold local_get_recent. rewrite Hl. reflexivity.
Qed.

Lemma save_then_read_round_trip_witness :
  (0 < 5 /\ Forall (fun c => json_loads c <> None)
              (get_list (redis_lists st_cache_empty) (redis_key "dave")) /\
   Forall (fun x => timestamp x < clock st_cache_empty) (get_list (mongo_docs st_cache_empty) "dave")) /\
  (let st1 := final (save_conversation env_store_only "dave" "hi" "hello" st_cache_empty) in
   (exists pre, result (get_context_history env_store_only "dave" 5 st1)
                = pre ++ [mk_entry RUser "hi"; mk_entry RAssistant "hello"]) /\
   head (result (load_recent_conversations env_store_only "dave" 5 st1))
   = Some ("hi", "hello", clock st_cache_empty)).
Proof.
  assert (Hold : Forall (fun x => timestamp x < clock st_cache_empty)
                   (get_list (mongo_docs st_cache_empty) "dave")).
  { vm_compute. repeat constructor. }
  split; [split; [lia | split; [exact (List.Forall_nil _) | exact Hold]]|].
  exact (save_then_read_round_trip env_store_only "dave" "hi" "hello" 5 st_cache_empty
           ltac:(lia) (List.Forall_nil _) Hold).
Defined.

Lemma reads_agree_outside_empty_store_witness :
  ((cache_works env_store_only st_cache_empty = true /\
    Forall (fun c => json_loads c <> None)
      (get_list (redis_lists st_cache_empty) (redis_key "dave"))) \/
   store_works env_store_only st_cache_empty = false \/
   get_list (mongo_docs st_cache_empty) "dave" <> []) /\
  result (get_context_history env_store_only "dave" 5 st_cache_empty)
  = flat_map row_entries (rev (result (load_recent_conversations env_store_only "dave" 5 st_cache_empty))).
Proof.
  assert (H : get_list (mongo_docs st_cache_empty) "dave" <> [])
    by (intros E; vm_compute in E; discriminate E).
  split; [right; right; exact H|].
  exact (reads_agree_outside_empty_store env_store_only "dave" 5 st_cache_empty
           (or_intror (or_intror H))).
Defined.

Lemma restore_after_saves_witness :
  (get_list (redis_lists empty_state) (redis_key "bob") = [] /\
   get_list (mongo_docs empty_state) "bob" = [] /\
   get_list (local_conversations empty_state) "bob" = [] /\
   (cache_works env_store_only empty_state = true \/ store_works env_store_only empty_state = false \/
    distinct_ms [(0%N, ("T1", "R1")); (5%N, ("T2", "R2"))])) /\
  result (restore_session env_store_only "bob" []
            (final (save_all env_store_only "bob" [(0%N, ("T1", "R1")); (5%N, ("T2", "R2"))] empty_state)))
  = flat_map pair_entries (skipn (length [(0%N, ("T1", "R1")); (5%N, ("T2", "R2"))] - 20)
                             (map snd [(0%N, ("T1", "R1")); (5%N, ("T2", "R2"))])).
Proof.
  assert (Hd : distinct_ms [(0%N, ("T1", "R1")); (5%N, ("T2", "R2"))]).
  { unfold distinct_ms. cbn. repeat constructor. }
  split; [split; [reflexivity|]; split; [reflexivity|]; split; [reflexivity | right; right; exact Hd]|].
  exact (restore_after_saves env_store_only "bob" [(0%N, ("T1", "R1")); (5%N, ("T2", "R2"))] empty_state
           eq_refl eq_refl eq_refl (or_intror (or_intror Hd))).
Defined.

(** ** Further properties: the chat session of app.py *)

Lemma chat_turn_some (e : env) u w p r msgs st :
  result (chat_turn e u w p (Some r) msgs st)
  = (msgs ++ [mk_entry RUser p]) ++ [mk_entry RAssistant r] /\
  final (chat_turn e u w p (Some r) msgs st)
  = final (save_conversation e u p r (final (get_context_history e u w st))).
Proof.
  unfold chat_turn. rewrite bind_result, bind_final. cbn beta iota.
  rewrite bind_result, bind_final. split; reflexivity.
Qed.

Lemma chat_turn_none (e : env) u w p msgs st :
  result (chat_turn e u w p None msgs st)
  = (msgs ++ [mk_entry RUser p]) ++ [mk_entry RAssistant error_reply] /\
  final (chat_turn e u w p None msgs st) = final (get_context_history e u w st).
Proof.
  unfold chat_turn. rewrite bind_result, bind_final. split; reflexivity.
Qed.

Lemma undo_last_spec (e : env) u msgs st :
  result (undo_last e u msgs st)
  = (if Nat.leb 2 (length msgs) then removelast (removelast msgs) else msgs) /\
  final (undo_last e u msgs st) = final (delete_last_conversation e u st).
Proof.
  unfold undo_last. rewrite bind_result, bind_final. split; reflexivity.
Qed.

Lemma undo_pair (msgs : list context_entry) x y :
  (if Nat.leb 2 (length ((msgs ++ [x]) ++ [y])) then removelast (removelast ((msgs ++ [x]) ++ [y]))
   else (msgs ++ [x]) ++ [y]) = msgs.
Proof.
  rewrite !length_app. cbn [length].
  replace (Nat.leb 2 (length msgs + 1 + 1)) with true by (symmetry; apply Nat.leb_le; lia).
  rewrite !removelast_last. reflexivity.
Qed.

(** X11: when the user's stored documents are all older than the
    current millisecond, the sidebar's "Undo Last Message" right after a
    chat turn whose reply was saved gives back the session messages from
    before the turn and each of the user's three tiers the list it held
    before. *)
Theorem undo_after_chat_turn (e : env) (u : string) (w : Z) (p r : string)
    (msgs : list context_entry) (st : state) :
  Forall (fun x => timestamp x < clock st) (get_list (mongo_docs st) u) ->
  let c := chat_turn e u w p (Some r) msgs st in
  let d := undo_last e u (result c) (final c) in
  result d = msgs /\
  get_list (redis_lists (final d)) (redis_key u) = get_list (redis_lists st) (redis_key u) /\
  get_list (mongo_docs (final d)) u = get_list (mongo_docs st) u /\
  get_list (local_conversations (final d)) u = get_list (local_conversations st) u.
Proof.
  intros Hold. cbv zeta. destruct (chat_turn_some e u w p r msgs st) as [Hres Hfin].
  destruct (undo_last_spec e u (result (chat_turn e u w p (Some r) msgs st))
              (final (chat_turn e u w p (Some r) msgs st))) as [Ures Ufin].
  rewrite Ures, Ufin, Hres, Hfin, undo_pair.
  destruct (read_frame e u w st) as (Rr & Rm & Rl & Rc & _ & _ & _).
  set (st0 := final (get_context_history e u w st)) in *.
  destruct (save_delete_frame e u p r st0) as (_ & Dr & Dm & Dl).
  { rewrite Rm, Rc. exact Hold. }
  rewrite Dr, Dm, Dl, Rr, Rm, Rl. repeat split.
Qed.

(** X12: when the reply fails, the chat turn saves nothing, yet "Undo
    Last Message" still pops the two session messages and, with the store
    answering, deletes the user's latest earlier document from it. *)
Theorem undo_after_failed_reply (e : env) (u : string) (w : Z) (p : string)
    (msgs : list context_entry) (st : state) (t : turn) (rest : list turn) :
  store_works e st = true -> get_list (mongo_docs st) u = t :: rest ->
  let c := chat_turn e u w p None msgs st in
  let d := undo_last e u (result c) (final c) in
  result d = msgs /\ get_list (mongo_docs (final d)) u = rest.
Proof.
  intros Hs Hm. cbv zeta. destruct (chat_turn_none e u w p msgs st) as [Hres Hfin].
  destruct (undo_last_spec e u (result (chat_turn e u w p None msgs st))
              (final (chat_turn e u w p None msgs st))) as [Ures Ufin].
  rewrite Ures, Ufin, Hres, Hfin, undo_pair. split; [reflexivity|].
  destruct (read_frame e u w st) as (_ & Rm & _ & _ & _ & Rs & _).
  set (st0 := final (get_context_history e u w st)) in *.
  destruct (delete_step e u st0) as (_ & _ & Dm & _).
  rewrite Dm, Rs, Rm, Hs, Hm. reflexivity.
Qed.

Lemma undo_after_chat_turn_witness :
  Forall (fun x => timestamp x < clock st_cache_empty) (get_list (mongo_docs st_cache_empty) "dave") /\
  (let c := chat_turn env_both_up "dave" 5 "hi" (Some "hello") [] st_cache_empty in
   let d := undo_last env_both_up "dave" (result c) (final c) in
   result d = [] /\
   get_list (redis_lists (final d)) (redis_key "dave")
   = get_list (redis_lists st_cache_empty) (redis_key "dave") /\
   get_list (mongo_docs (final d)) "dave" = get_list (mongo_docs st_cache_empty) "dave" /\
   get_list (local_conversations (final d)) "dave"
   = get_list (local_conversations st_cache_empty) "dave").
Proof.
  assert (Hold : Forall (fun x => timestamp x < clock st_cache_empty)
                   (get_list (mongo_docs st_cache_empty) "dave")).
  { vm_compute. repeat constructor. }
  split; [exact Hold|].
  exact (undo_after_chat_turn env_both_up "dave" 5 "hi" "hello" [] st_cache_empty Hold).
Defined.

Lemma undo_after_failed_reply_witness :
  (store_works env_both_up st_cache_empty = true /\
   get_list (mongo_docs st_cache_empty) "dave" = [t_old]) /\
  (let c := chat_turn env_both_up "dave" 5 "hi" None [] st_cache_empty in
   let d := undo_last env_both_up "dave" (result c) (final c) in
   result d = [] /\ get_list (mongo_docs (final d)) "dave" = []).
Proof.
  split; [split; reflexivity|].
  exact (undo_after_failed_reply env_both_up "dave" 5 "hi" [] st_cache_empty t_old []
           eq_refl eq_refl).
Defined.

(** ** Further properties: config.py *)

Lemma transform_chars_ascii (l r : pystring) :
  forallb (fun c => c <? 127) l = true -> transform_chars (l ++ r) = l ++ transform_chars r.
Proof.
  induction l as [|c l IH]; cbn [app forallb transform_chars]; [reflexivity|].
  intros H. apply andb_true_iff in H as [Hc Hl]. rewrite Hc, IH by exact Hl. reflexivity.
Qed.

Lemma int_whitespace_high (c : Z) :
  int_whitespace c = true -> 127 <= c -> unicode_isspace c = true.
Proof.
  unfold int_whitespace, py_isspace. intros H Hc.
  destruct (unicode_isspace c); [reflexivity|].
  rewrite andb_false_r, orb_false_r in H. exfalso.
  apply orb_true_iff in H as [H | H].
  - apply andb_true_iff in H as [_ H]. apply Z.leb_le in H. lia.
  - apply Z.eqb_eq in H. lia.
Qed.

Lemma int_whitespace_low (c : Z) :
  int_whitespace c = true -> c < 128 -> py_isspace c = true.
Proof.
  intros H Hc. unfold int_whitespace in H.
  destruct (py_isspace c); [reflexivity|]. cbn in H.
  apply andb_true_iff in H as [H1 H2]. apply Z.leb_le in H1.
  replace c with 127 in H2 by lia. discriminate H2.
Qed.

Lemma transform_chars_spaces (l r : pystring) :
  forallb int_whitespace l = true -> transform_chars (l ++ r) = map to_space l ++ transform_chars r.
Proof.
  induction l as [|c l IH]; cbn [app map forallb transform_chars]; [reflexivity|].
  intros H. apply andb_true_iff in H as [Hc Hl].
  unfold to_space at 1. destruct (c <? 127) eqn:E.
  - rewrite IH by exact Hl. reflexivity.
  - apply Z.ltb_ge in E. rewrite (int_whitespace_high c Hc E), IH by exact Hl. reflexivity.
Qed.

Lemma map_to_space_py (l : pystring) :
  forallb int_whitespace l = true -> forallb py_isspace (map to_space l) = true.
Proof.
  induction l as [|c l IH]; cbn; [reflexivity|].
  intros H. apply andb_true_iff in H as [Hc Hl]. rewrite IH by exact Hl.
  unfold to_space. destruct (c <? 127) eqn:E; [|reflexivity].
  apply Z.ltb_lt in E. rewrite (int_whitespace_low c Hc) by lia. reflexivity.
Qed.

Lemma ascii_spaces_py (l : pystring) :
  forallb int_whitespace l = true -> forallb (fun c => c <? 128) l = true ->
  forallb py_isspace l = true.
Proof.
  induction l as [|c l IH]; cbn; [reflexivity|].
  intros H1 H2. apply andb_true_iff in H1 as [Hc Hl]. apply andb_true_iff in H2 as [Ha Hl'].
  apply Z.ltb_lt in Ha. rewrite (int_whitespace_low c Hc Ha), IH by assumption. reflexivity.
Qed.

Lemma skip_spaces_app (P l : pystring) :
  forallb py_isspace P = true -> skip_spaces (P ++ l) = skip_spaces l.
Proof.
  induction P as [|c P IH]; cbn; [reflexivity|].
  intros H. apply andb_true_iff in H as [Hc HP]. rewrite Hc. apply IH, HP.
Qed.

Lemma skip_spaces_all (l : pystring) : forallb py_isspace l = true -> skip_spaces l = [].
Proof. intros H. rewrite <- (app_nil_r l), skip_spaces_app by exact H. reflexivity. Qed.

Lemma skip_spaces_keep (c : Z) (l : pystring) :
  py_isspace c = false -> skip_spaces (c :: l) = c :: l.
Proof. intros H. cbn. rewrite H. reflexivity. Qed.

Lemma skip_spaces_In (c : Z) (l : pystring) :
  In c l -> py_isspace c = false -> In c (skip_spaces l).
Proof.
  induction l as [|c' l IH]; cbn; [tauto|].
  intros [-> | Hin] Hc; [rewrite Hc; left; reflexivity|].
  destruct (py_isspace c'); [apply IH; assumption | right; exact Hin].
Qed.

(** The ASCII digits. *)
Lemma digit_char (c : Z) :
  48 <= c <= 57 ->
  digit_value c = Some (c - 48) /\ py_isspace c = false /\ c < 127 /\
  (c =? 43) = false /\ (c =? 45) = false /\ (c =? 95) = false.
Proof.
  intros Hc. unfold digit_value, py_isspace.
  rewrite (proj2 (Z.leb_le 48 c)), (proj2 (Z.leb_le c 57)) by lia. cbn [andb].
  rewrite (proj2 (Z.leb_gt c 13)) by lia. rewrite andb_false_r. cbn [orb].
  rewrite !(proj2 (Z.eqb_neq _ _)) by lia. repeat split; lia.
Qed.

Lemma digit_of_mod (m : N) : 48 <= 48 + Z.of_N (m mod 10) <= 57.
Proof.
  pose proof (N.mod_lt m 10 ltac:(lia)). pose proof (N2Z.is_nonneg (m mod 10)).
  assert (Z.of_N (m mod 10) < 10) by lia. lia.
Qed.

Lemma digits_rev_chars (fuel : nat) (m : N) (c : Z) :
  In c (digits_rev fuel m) -> 48 <= c <= 57.
Proof.
  revert m. induction fuel as [|f IH]; intros m; cbn [digits_rev In]; [tauto|].
  intros [<- | Hin]; [apply digit_of_mod|].
  destruct (m / 10 =? 0)%N; [destruct Hin | exact (IH _ Hin)].
Qed.

Lemma scan_digits_rev (fuel : nat) (m : N) (r : pystring) (k : nat) (pu : bool) :
  (N.to_nat m < fuel)%nat ->
  scan_digits (rev (digits_rev fuel m) ++ r) 0 k pu
  = scan_digits r (Z.of_N m) (k + length (digits_rev fuel m)) false.
Proof.
  revert m r k pu. induction fuel as [|f IH]; intros m r k pu Hf; [lia|].
  destruct (digit_char _ (digit_of_mod m)) as (Hd & _).
  pose proof (N.div_mod m 10 ltac:(lia)) as Hdm.
  assert (Hz : Z.of_N m = 10 * Z.of_N (m / 10) + Z.of_N (m mod 10)) by lia.
  cbn [digits_rev rev].
  destruct (m / 10 =? 0)%N eqn:Eq.
  - apply N.eqb_eq in Eq. cbn [rev app scan_digits length]. rewrite Hd.
    rewrite Eq in Hz. cbn in Hz. f_equal; [|lia]. lia.
  - apply N.eqb_neq in Eq. rewrite <- app_assoc. cbn [app length].
    rewrite IH.
    + cbn [scan_digits]. rewrite Hd. f_equal; [|lia]. lia.
    + assert (Hm0 : m <> 0%N) by (intros ->; apply Eq; reflexivity).
      assert (m / 10 < m)%N by (apply N.div_lt; lia). lia.
Qed.

Lemma scan_digits_spaces (Q : pystring) (v : Z) (k : nat) :
  forallb py_isspace Q = true -> scan_digits Q v k false = Some (v, k, Q).
Proof.
  destruct Q as [|c Q]; [reflexivity|]. cbn [forallb]. intros H.
  apply andb_true_iff in H as [Hc _]. unfold py_isspace in Hc. cbn [scan_digits].
  assert (Hd : digit_value c = None).
  { unfold digit_value. destruct ((48 <=? c) && (c <=? 57)) eqn:E; [|reflexivity].
    apply andb_true_iff in E as [E1 E2]. apply Z.leb_le in E1, E2.
    apply orb_true_iff in Hc as [Hc | Hc];
      [apply andb_true_iff in Hc as [_ Hc]; apply Z.leb_le in Hc | apply Z.eqb_eq in Hc]; lia. }
  assert (Hu : (c =? 95) = false).
  { apply Z.eqb_neq. intros ->. discriminate Hc. }
  rewrite Hd, Hu. reflexivity.
Qed.

Lemma digits_length_bound (fuel : nat) (m : N) (K : nat) :
  (0 < K)%nat -> (m < 10 ^ N.of_nat K)%N -> (length (digits_rev fuel m) <= K)%nat.
Proof.
  revert m K. induction fuel as [|f IH]; intros m K HK Hm; cbn [digits_rev length]; [lia|].
  destruct (m / 10 =? 0)%N eqn:Eq; cbn [length]; [lia|].
  apply N.eqb_neq in Eq.
  destruct K as [|K']; [lia|]. destruct K' as [|K''].
  - exfalso. apply Eq. apply N.div_small. exact Hm.
  - enough (length (digits_rev f (m / 10)) <= S K'')%nat by lia.
    apply IH; [lia|].
    apply N.Div0.div_lt_upper_bound.
    replace (N.of_nat (S (S K''))) with (N.succ (N.of_nat (S K''))) in Hm by lia.
    rewrite N.pow_succ_r' in Hm. exact Hm.
Qed.

Lemma digits_rev_nonempty (f : nat) (m : N) : digits_rev (S f) m <> [].
Proof. cbn. discriminate. Qed.

Lemma long_from_string_py_str (n : Z) (P Q : pystring) :
  forallb py_isspace P = true -> forallb py_isspace Q = true ->
  (length (digits_rev (S (Z.to_nat (Z.abs n))) (Z.abs_N n)) <= int_max_str_digits)%nat ->
  long_from_string (P ++ py_str n ++ Q) = Some n.
Proof.
  intros HP HQ Hlen. unfold long_from_string, py_str.
  rewrite skip_spaces_app by exact HP.
  set (D := digits_rev (S (Z.to_nat (Z.abs n))) (Z.abs_N n)) in *.
  assert (HD : forall c, In c (rev D) -> 48 <= c <= 57).
  { intros c Hc. apply in_rev in Hc. exact (digits_rev_chars _ _ _ Hc). }
  assert (HDne : D <> []) by apply digits_rev_nonempty.
  assert (Hlen0 : Nat.eqb (length D) 0 = false).
  { apply Nat.eqb_neq. intros H0. apply HDne, length_zero_iff_nil, H0. }
  assert (Hmax : Nat.ltb int_max_str_digits (length D) = false) by (apply Nat.ltb_ge; exact Hlen).
  assert (Hscan : scan_digits (rev D ++ Q) 0 0 false
                  = Some (Z.of_N (Z.abs_N n), length D, Q)).
  { unfold D. rewrite scan_digits_rev by lia. apply scan_digits_spaces, HQ. }
  assert (Habs : Z.of_N (Z.abs_N n) = Z.abs n) by apply Zabs2N.id_abs.
  destruct (rev D) as [|h t] eqn:ER.
  { exfalso. apply HDne. rewrite <- (rev_involutive D), ER. reflexivity. }
  destruct (digit_char h (HD h (or_introl eq_refl))) as (_ & Hsp & _ & H43 & H45 & H95).
  destruct (n <? 0) eqn:Hn.
  - apply Z.ltb_lt in Hn. cbn [app]. rewrite skip_spaces_keep by reflexivity.
    change (45 =? 43) with false. change (45 =? 45) with true. cbn iota beta. rewrite H95.
    change (h :: t ++ Q) with ((h :: t) ++ Q). rewrite Hscan, Hmax, Hlen0.
    rewrite skip_spaces_all by exact HQ. f_equal. lia.
  - apply Z.ltb_ge in Hn. cbn [app]. rewrite skip_spaces_keep by exact Hsp.
    rewrite H43, H45. cbn iota beta. rewrite H95.
    change (h :: t ++ Q) with ((h :: t) ++ Q). rewrite Hscan, Hmax, Hlen0.
    rewrite skip_spaces_all by exact HQ. f_equal. lia.
Qed.

Lemma py_str_ascii (n : Z) : forallb (fun c => c <? 127) (py_str n) = true.
Proof.
  unfold py_str. rewrite forallb_app. apply andb_true_iff. split.
  - destruct (n <? 0); reflexivity.
  - apply forallb_forall. intros c Hc. apply in_rev in Hc.
    pose proof (digits_rev_chars _ _ _ Hc). apply Z.ltb_lt. lia.
Qed.

(** X13: [_safe_int] parses back [str(n)] for every integer [n] of at most
    [int_max_str_digits] digits, padded with the whitespace [int()]
    accepts, whatever the default. *)
Theorem safe_int_round_trip (n default : Z) (pre post : pystring) :
  forallb int_whitespace pre = true -> forallb int_whitespace post = true ->
  Z.abs n < 10 ^ Z.of_nat int_max_str_digits ->
  safe_int (pre ++ py_str n ++ post) default = n.
Proof.
  intros Hpre Hpost Hn.
  assert (Hlen : (length (digits_rev (S (Z.to_nat (Z.abs n))) (Z.abs_N n)) <= int_max_str_digits)%nat).
  { apply digits_length_bound; [unfold int_max_str_digits; lia|].
    apply N2Z.inj_lt. rewrite Zabs2N.id_abs, N2Z.inj_pow, nat_N_Z. exact Hn. }
  unfold safe_int, py_int, transform_decimal_and_space.
  destruct (forallb (fun c => c <? 128) (pre ++ py_str n ++ post)) eqn:Ea.
  - rewrite !forallb_app in Ea. apply andb_true_iff in Ea as [Ea1 Ea2].
    apply andb_true_iff in Ea2 as [_ Ea3].
    rewrite long_from_string_py_str; [reflexivity | | | exact Hlen];
      apply ascii_spaces_py; assumption.
  - rewrite transform_chars_spaces by exact Hpre.
    rewrite transform_chars_ascii by apply py_str_ascii.
    rewrite <- (app_nil_r post), transform_chars_spaces by exact Hpost.
    cbn [transform_chars]. rewrite app_nil_r.
    rewrite long_from_string_py_str; [reflexivity | apply map_to_space_py, Hpre
                                     | apply map_to_space_py, Hpost | exact Hlen].
Qed.

Lemma long_from_string_spaces (l : pystring) :
  forallb py_isspace l = true -> long_from_string l = None.
Proof.
  intros H. unfold long_from_string. rewrite (skip_spaces_all l H). reflexivity.
Qed.

Lemma scan_digits_In (c : Z) (l : pystring) :
  In c l -> digit_value c = None -> (c =? 95) = false ->
  forall acc k pu v k' r, scan_digits l acc k pu = Some (v, k', r) -> In c r.
Proof.
  intros Hin Hd Hu. induction l as [|x l IH]; [destruct Hin|].
  intros acc k pu v k' r Hs. cbn [scan_digits] in Hs.
  destruct Hin as [-> | Hin].
  - rewrite Hd, Hu in Hs. destruct pu; [discriminate|].
    injection Hs as _ _ <-. left. reflexivity.
  - destruct (digit_value x) as [d|]; [exact (IH Hin _ _ _ _ _ _ Hs)|].
    destruct (x =? 95); destruct pu; try discriminate.
    + exact (IH Hin _ _ _ _ _ _ Hs).
    + injection Hs as _ _ <-. right. exact Hin.
Qed.

Lemma long_from_string_tail (c sign : Z) (l : pystring) :
  In c l -> py_isspace c = false -> digit_value c = None -> (c =? 95) = false ->
  (if match l with c0 :: _ => c0 =? 95 | [] => false end then None
   else match scan_digits l 0 0 false with
        | None => None
        | Some (v, digits, rest) =>
            if Nat.ltb int_max_str_digits digits then None
            else if Nat.eqb digits 0 then None
            else match skip_spaces rest with
                 | [] => Some (sign * v)
                 | _ :: _ => None
                 end
        end) = None.
Proof.
  intros Hin Hsp Hd Hu.
  destruct (match l with c0 :: _ => c0 =? 95 | [] => false end); [reflexivity|].
  destruct (scan_digits l 0 0 false) as [[[v k'] r]|] eqn:Es; [|reflexivity].
  pose proof (scan_digits_In c l Hin Hd Hu _ _ _ _ _ _ Es) as Hin3.
  destruct (Nat.ltb int_max_str_digits k'); [reflexivity|].
  destruct (Nat.eqb k' 0); [reflexivity|].
  pose proof (skip_spaces_In c r Hin3 Hsp) as Hin4.
  destruct (skip_spaces r); [destruct Hin4 | reflexivity].
Qed.

Lemma long_from_string_invalid (c : Z) (l : pystring) :
  In c l -> invalid_ascii c = true -> long_from_string l = None.
Proof.
  intros Hin Hc. unfold invalid_ascii in Hc.
  destruct (py_isspace c) eqn:Hsp; [discriminate|].
  destruct (digit_value c) eqn:Hd; [discriminate|].
  destruct (c =? 95) eqn:Hu; [discriminate|].
  destruct (c =? 43) eqn:Hp; [discriminate|].
  destruct (c =? 45) eqn:Hm; [discriminate|].
  unfold long_from_string.
  pose proof (skip_spaces_In c l Hin Hsp) as Hin1.
  destruct (skip_spaces l) as [|x rest]; [destruct Hin1|].
  destruct (x =? 43) eqn:E1; [|destruct (x =? 45) eqn:E2]; cbn iota beta zeta.
  - apply Z.eqb_eq in E1. subst x. destruct Hin1 as [<- | Hin2]; [discriminate|].
    exact (long_from_string_tail c 1 rest Hin2 Hsp Hd Hu).
  - apply Z.eqb_eq in E2. subst x. destruct Hin1 as [<- | Hin2]; [discriminate|].
    exact (long_from_string_tail c (-1) rest Hin2 Hsp Hd Hu).
  - exact (long_from_string_tail c 1 (x :: rest) Hin1 Hsp Hd Hu).
Qed.

Lemma foreign_invalid (c : Z) : foreign_char c = true -> invalid_ascii c = true.
Proof.
  unfold foreign_char, invalid_ascii, int_whitespace, int_digit, digit_value.
  destruct (py_isspace c), ((48 <=? c) && (c <=? 57)), (127 <=? c), (unicode_isspace c),
    (unicode_todecimal c), (c =? 95), (c =? 43), (c =? 45); cbn; congruence.
Qed.

Lemma foreign_high (c : Z) :
  foreign_char c = true -> 127 <= c -> unicode_isspace c = false /\ unicode_todecimal c = None.
Proof.
  unfold foreign_char, int_whitespace, int_digit. intros H Hc.
  rewrite (proj2 (Z.leb_le 127 c) Hc) in H. cbn [andb] in H.
  destruct (py_isspace c), ((48 <=? c) && (c <=? 57)), (unicode_isspace c),
    (unicode_todecimal c), (c =? 95), (c =? 43), (c =? 45); cbn in H;
    try discriminate; split; reflexivity.
Qed.

Lemma transform_chars_foreign (c : Z) (l : pystring) :
  In c l -> foreign_char c = true ->
  exists c', In c' (transform_chars l) /\ invalid_ascii c' = true.
Proof.
  intros Hin Hf. induction l as [|x l IH]; [destruct Hin|]. cbn [transform_chars].
  destruct Hin as [-> | Hin].
  - destruct (c <? 127) eqn:E.
    + exists c. split; [left; reflexivity | apply foreign_invalid, Hf].
    + apply Z.ltb_ge in E. destruct (foreign_high c Hf E) as [-> ->].
      exists 63. split; [left; reflexivity | reflexivity].
  - destruct (IH Hin) as (c' & Hc' & Hbad).
    destruct (x <? 127); [exists c'; split; [right; exact Hc' | exact Hbad]|].
    destruct (unicode_isspace x); [exists c'; split; [right; exact Hc' | exact Hbad]|].
    destruct (unicode_todecimal x); [exists c'; split; [right; exact Hc' | exact Hbad]|].
    exists 63. split; [left; reflexivity | reflexivity].
Qed.

(** X14: [_safe_int] returns the default for a blank value and for a value
    holding a code point that no integer literal may contain. *)
Theorem safe_int_default (value : pystring) (default : Z) :
  forallb int_whitespace value = true \/ existsb foreign_char value = true ->
  safe_int value default = default.
Proof.
  intros H. unfold safe_int.
  enough (Hn : py_int value = None) by (rewrite Hn; reflexivity).
  unfold py_int, transform_decimal_and_space.
  destruct H as [Hs | Hf].
  - destruct (forallb (fun c => c <? 128) value) eqn:Ea.
    + apply long_from_string_spaces, ascii_spaces_py; assumption.
    + rewrite <- (app_nil_r value), transform_chars_spaces by exact Hs.
      cbn [transform_chars]. rewrite app_nil_r.
      apply long_from_string_spaces, map_to_space_py, Hs.
  - apply existsb_exists in Hf. destruct Hf as (c & Hin & Hc).
    destruct (forallb (fun c => c <? 128) value).
    + exact (long_from_string_invalid c value Hin (foreign_invalid c Hc)).
    + destruct (transform_chars_foreign c value Hin Hc) as (c' & Hin' & Hbad).
      exact (long_from_string_invalid c' _ Hin' Hbad).
Qed.

Lemma safe_int_round_trip_witness :
  (forallb int_whitespace [12288; 32] = true /\ forallb int_whitespace [160; 9] = true /\
   Z.abs (-42) < 10 ^ Z.of_nat int_max_str_digits) /\
  safe_int ([12288; 32] ++ py_str (-42) ++ [160; 9]) 5 = -42.
Proof.
  assert (Hb : Z.abs (-42) < 10 ^ Z.of_nat int_max_str_digits) by (vm_compute; reflexivity).
  split; [split; [reflexivity | split; [reflexivity | exact Hb]]|].
  exact (safe_int_round_trip (-42) 5 [12288; 32] [160; 9] eq_refl eq_refl Hb).
Defined.

Lemma safe_int_default_witness :
  (forallb int_whitespace [28; 45; 52; 50] = true \/ existsb foreign_char [28; 45; 52; 50] = true) /\
  safe_int [28; 45; 52; 50] 5 = 5.
Proof.
  split; [right; reflexivity|].
  exact (safe_int_default [28; 45; 52; 50] 5 (or_intror eq_refl)).
Defined.
